(** * Machine handles and the remote-relations client

    A shallow embedding of two Go packages:

    - package [state] ([state/machine.go]): the [Machine] entity handle, its
      accessors, its mutators, the lifecycle operations and [WaitAgentAlive];
    - package [remoterelations]: the client side of the [RemoteRelations]
      facade, with [WatchRemoteApplication].

    Go code mutates a handle through a pointer receiver and talks to a
    database, a transaction runner and a presence watcher.  Here every method
    is a computation in a small state-and-panic monad over [State]; a method
    with a pointer receiver returns the updated handle next to its Go
    results.  Further modules embed [Units] and [newMachine] (module
    [state_more]), [WatchRemoteApplications] (module [remoteapps]) and the
    package [cmd].  The methods [Watch], [AgentAlive] and [SetAgentAlive] of
    [Machine] and the function [DefaultContext] of [cmd], which only hand
    over to the presence package and to the operating system, are not
    embedded. *)

From Stdlib Require Import ZArith DecimalString DecimalZ DecimalPos.
From stdpp Require Import base option list gmap strings.

Module state.

(** ** Documents *)

(** [Life]: the lifecycle values, in their order. *)
Inductive Life : Set := Alive | Dying | Dead.

#[global] Instance Life_eq_dec : EqDecision Life.
Proof. solve_decision. Defined.

(** Position of a [Life] value in the progression Alive, Dying, Dead. *)
Definition Life_rank (l : Life) : nat :=
  match l with Alive => 0 | Dying => 1 | Dead => 2 end.

Definition WorkerKind : Set := string.

(** [Tools] is declared outside [machine.go]; the methods here read its
    [Series] and [Arch] fields only, [URL] stands for the rest of it. *)
Record Tools : Set := mkTools {
  Series : string;
  Arch : string;
  URL : string
}.

(** A Go [*Tools] is [option ptr]: [None] is [nil], [Some p] is the address of
    a [Tools] object in the memory [mem] of the state. *)
Definition ptr : Set := nat.

(** [machineDoc].  The struct is used at two types: in a handle the [Tools]
    field is a pointer ([T := ptr]), in the collection the document is stored
    by value ([T := Tools]).  [docLife] and [docTools] are the Go fields
    [Life] and [Tools]. *)
Record machineDocOf (T : Type) : Type := mkDoc {
  Id : Z;
  InstanceId : string;
  Principals : list string;
  docLife : Life;
  docTools : option T;
  TxnRevno : Z;
  Workers : list WorkerKind
}.
Arguments mkDoc {T}.
Arguments Id {T}.
Arguments InstanceId {T}.
Arguments Principals {T}.
Arguments docLife {T}.
Arguments docTools {T}.
Arguments TxnRevno {T}.
Arguments Workers {T}.

Abbreviation machineDoc := (machineDocOf ptr).
Abbreviation storedDoc := (machineDocOf Tools).

Definition withTools {T U : Type} (d : machineDocOf T) (t : option U)
  : machineDocOf U :=
  mkDoc (Id d) (InstanceId d) (Principals d) (docLife d) t (TxnRevno d)
        (Workers d).

Definition withInstanceId {T : Type} (d : machineDocOf T) (id : string)
  : machineDocOf T :=
  mkDoc (Id d) id (Principals d) (docLife d) (docTools d) (TxnRevno d)
        (Workers d).

Definition withLife {T : Type} (d : machineDocOf T) (l : Life)
  : machineDocOf T :=
  mkDoc (Id d) (InstanceId d) (Principals d) l (docTools d) (TxnRevno d)
        (Workers d).

Definition withTxnRevno {T : Type} (d : machineDocOf T) (r : Z)
  : machineDocOf T :=
  mkDoc (Id d) (InstanceId d) (Principals d) (docLife d) (docTools d) r
        (Workers d).

(** ** Errors *)

Inductive error : Set :=
| ErrAborted                                (* txn.ErrAborted *)
| ErrNotFound                               (* mgo.ErrNotFound *)
| errNotAlive                               (* state.errNotAlive *)
| NotFoundError (what : string)             (* *NotFoundError, from notFound *)
| Errorf (msg : string)                     (* fmt.Errorf(msg) *)
| ErrContext (msg : string) (cause : error) (* fmt.Errorf(msg + ": %v", cause) *).

(** [notFound(format, args...)]: the argument is the formatted text. *)
Definition notFound (what : string) : error := NotFoundError what.

Definition isNotFound (e : option error) : bool :=
  match e with Some (NotFoundError _) => true | _ => false end.

(** Modelled from the spec: [onAbort] is not in [machine.go]; on the runner's
    "aborted" condition the caller's error replaces it, any other error is
    passed on. *)
Definition onAbort (txnErr err : error) : error :=
  match txnErr with ErrAborted => err | _ => txnErr end.

(** Modelled from the spec: [trivial.ErrorContextf] is not in [machine.go];
    an error that leaves the method is wrapped with the context that names
    the entity and the operation, [nil] stays [nil]. *)
Definition ErrorContextf (context : string) (err : option error)
  : option error :=
  match err with
  | Some e => Some (ErrContext context e)
  | None => None
  end.

(** ** Transactions *)

(** The assertions and updates that the machine methods put in a [txn.Op]. *)
Inductive Assertion : Set := notDead | isAlive.

Inductive UpdateDoc : Set :=
| Set_instanceid (id : string)     (* D{{"$set", D{{"instanceid", id}}}} *)
| Set_tools (t : Tools)            (* D{{"$set", D{{"tools", t}}}} *)
| Set_life (l : Life)              (* D{{"$set", D{{"life", l}}}} *).

(** [txn.Op]; [DocId] is its field [Id]. *)
Record Op : Set := mkOp {
  C : string;
  DocId : Z;
  Assert : Assertion;
  Update : UpdateDoc
}.

(** ** The state *)

(** What [m.st] reaches, with the Go memory that holds [Tools] objects.
    - [machines]: the collection [st.machines], keyed by [_id];
    - [runner]: the transactions handed to [st.runner.Run], oldest first;
    - [faults]: what the next accesses to the database meet, [Some msg] for an
      access that fails with an I/O error, [None] (or no entry) for one that
      goes through;
    - [pwatcher]: the subscriptions (key, channel) of [st.pwatcher];
    - [chans]: the number of channels made so far. *)
Record State : Type := mkState {
  mem : list Tools;
  machines : gmap Z storedDoc;
  runner : list (list Op);
  faults : list (option string);
  pwatcher : list (string * nat);
  chans : nat
}.

Definition set_mem (h : list Tools) (s : State) : State :=
  mkState h (machines s) (runner s) (faults s) (pwatcher s) (chans s).
Definition set_machines (ms : gmap Z storedDoc) (s : State) : State :=
  mkState (mem s) ms (runner s) (faults s) (pwatcher s) (chans s).
Definition set_runner (r : list (list Op)) (s : State) : State :=
  mkState (mem s) (machines s) r (faults s) (pwatcher s) (chans s).
Definition set_faults (f : list (option string)) (s : State) : State :=
  mkState (mem s) (machines s) (runner s) f (pwatcher s) (chans s).
Definition set_pwatcher (w : list (string * nat)) (s : State) : State :=
  mkState (mem s) (machines s) (runner s) (faults s) w (chans s).
Definition set_chans (n : nat) (s : State) : State :=
  mkState (mem s) (machines s) (runner s) (faults s) (pwatcher s) n.

(** ** The monad: state passing, with Go panics *)

Inductive Res (A : Type) : Type :=
| Ret (a : A) (s : State)
| Panic (msg : string) (s : State).
Arguments Ret {A}.
Arguments Panic {A}.

Definition M (A : Type) : Type := State -> Res A.

#[global] Instance M_ret : MRet M := fun A a s => Ret a s.
#[global] Instance M_bind : MBind M := fun A B k c s =>
  match c s with
  | Ret a s' => k a s'
  | Panic msg s' => Panic msg s'
  end.

Definition panic {A : Type} (msg : string) : M A := fun s => Panic msg s.
Definition gets {A : Type} (f : State -> A) : M A := fun s => Ret (f s) s.
Definition modify (f : State -> State) : M unit := fun s => Ret tt (f s).

(** [defer d; body]: [d] runs when [body] returns and when it panics. *)
Definition defer {A : Type} (d : M unit) (body : M A) : M A := fun s =>
  match body s with
  | Ret a s' =>
      match d s' with Ret _ s'' => Ret a s'' | Panic msg s'' => Panic msg s'' end
  | Panic msg s' =>
      match d s' with Ret _ s'' => Panic msg s'' | Panic msg' s'' => Panic msg' s'' end
  end.

(** ** Memory *)

(** [*p]: a nil pointer (or an address that holds nothing) panics. *)
Definition load (p : option ptr) : M Tools := fun s =>
  match p ≫= (mem s !!.) with
  | Some t => Ret t s
  | None => Panic "invalid memory address or nil pointer dereference" s
  end.

(** [tools := v; &tools]: a new object, at an address not used before. *)
Definition new (v : Tools) : M ptr := fun s =>
  Ret (length (mem s)) (set_mem (mem s ++ [v]) s).

(** [*p = v] through a valid pointer. *)
Definition store (p : ptr) (v : Tools) : M unit :=
  modify (fun s => set_mem (<[p := v]> (mem s)) s).

(** ** The database *)

(** One round trip to the database: it takes the next entry of [faults]. *)
Definition roundTrip : M (option error) := fun s =>
  match faults s with
  | [] => Ret None s
  | f :: fs => Ret (Errorf <$> f) (set_faults fs s)
  end.

(** Does a stored document satisfy an assertion? *)
Definition holds (a : Assertion) (d : storedDoc) : bool :=
  match a with
  | notDead => bool_decide (docLife d ≠ Dead)
  | isAlive => bool_decide (docLife d = Alive)
  end.

Definition applyUpdate (u : UpdateDoc) (d : storedDoc) : storedDoc :=
  match u with
  | Set_instanceid id => withInstanceId d id
  | Set_tools t => withTools d (Some t)
  | Set_life l => withLife d l
  end.

(** An operation is applicable when its document exists and satisfies the
    assertion. *)
Definition opHolds (ms : gmap Z storedDoc) (o : Op) : bool :=
  match ms !! DocId o with
  | Some d => holds (Assert o) d
  | None => false
  end.

(** A write bumps the revision counter of the document. *)
Definition applyOp (ms : gmap Z storedDoc) (o : Op) : gmap Z storedDoc :=
  alter (fun d => withTxnRevno (applyUpdate (Update o) d) (TxnRevno d + 1)%Z)
        (DocId o) ms.

(** Modelled from the spec: the transaction runner [st.runner.Run(ops, "",
    nil)] is outside the repository's sources.  It applies the operations as a
    unit: all of them when every assertion holds, none of them otherwise, and
    a failed assertion is the distinguishable condition [ErrAborted].  Only the
    collection of machines is modelled. *)
Definition runner_Run (ops : list Op) : M (option error) :=
  _ ← modify (fun s => set_runner (runner s ++ [ops]) s);
  io ← roundTrip;
  match io with
  | Some e => mret (Some e)
  | None =>
      ms ← gets machines;
      if forallb (opHolds ms) ops
      then _ ← modify (set_machines (foldl applyOp ms ops)); mret None
      else mret (Some ErrAborted)
  end.

(** Decoding a stored document into a Go struct: the [Tools] value, when
    there is one, goes to a new object. *)
Definition unmarshal (d : storedDoc) : M machineDoc :=
  match docTools d with
  | None => mret (withTools d None)
  | Some t => p ← new t; mret (withTools d (Some p))
  end.

(** Modelled from the spec: [st.machines.FindId(id).One(&doc)], the point
    lookup by id of the document store.  It gives the decoded document, or
    [ErrNotFound] when there is none, or an I/O error. *)
Definition machines_FindId_One (id : Z) : M (machineDoc + error) :=
  io ← roundTrip;
  match io with
  | Some e => mret (inr e)
  | None =>
      ms ← gets machines;
      match ms !! id with
      | None => mret (inr ErrNotFound)
      | Some d => doc ← unmarshal d; mret (inl doc)
      end
  end.

(** [st.machines.Name]. *)
Definition machines_Name : string := "machines".

(** ** Lifecycle helpers *)

(** Modelled from the spec: the lifecycle helpers are not in [machine.go].
    A helper is one conditional transaction that asserts the current [Life]
    is below the target and sets [Life] to the target.  An assertion that
    fails because [Life] is already at or past the target is a success; one
    that fails because the document is gone is a not-found error; any other
    error is wrapped with the entity it concerns. *)
Definition ensureLife (target : Life) (below : Assertion) (id : Z)
    (desc : string) : M (option error) :=
  err ← runner_Run [mkOp machines_Name id below (Set_life target)];
  match err with
  | None => mret None
  | Some ErrAborted =>
      ms ← gets machines;
      match ms !! id with
      | Some _ => mret None
      | None => mret (Some (notFound desc))
      end
  | Some e => mret (Some (ErrContext ("cannot advance life of " +:+ desc) e))
  end.

(** Modelled from the spec: [ensureDying(st, st.machines, id, desc)], the
    transition from Alive to Dying, a no-op on a Dying or Dead entity. *)
Definition ensureDying (id : Z) (desc : string) : M (option error) :=
  ensureLife Dying isAlive id desc.

(** Modelled from the spec: [ensureDead(st, st.machines, id, desc, nil, "")],
    the transition from Alive or Dying to Dead, a no-op on a Dead entity. *)
Definition ensureDead (id : Z) (desc : string) : M (option error) :=
  ensureLife Dead notDead id desc.

(** ** Machine *)

(** [Machine]: the field [st] is the state that the computations thread. *)
Record Machine : Set := mkMachine { doc : machineDoc }.

(** [strconv.Itoa]. *)
Definition Itoa (i : Z) : string := NilZero.string_of_int (Z.to_int i).

(** [String]: the id in decimal. *)
Definition Machine_String (m : Machine) : string := Itoa (Id (doc m)).

(** [Id]. *)
Definition Machine_Id (m : Machine) : Z := Id (doc m).

(** [globalKey]: the key of the machine for the presence watcher. *)
Definition Machine_globalKey (m : Machine) : string :=
  "m#" +:+ Machine_String m.

(** [PathKey]. *)
Definition Machine_PathKey (m : Machine) : string :=
  "machine-" +:+ Itoa (Id (doc m)).

(** [Life]: the cached value, with no access to the database. *)
Definition Machine_Life (m : Machine) : Life := docLife (doc m).

(** [Workers]. *)
Definition Machine_Workers (m : Machine) : list WorkerKind := Workers (doc m).

(** [m.doc.f = v] for the three fields that the methods assign. *)
Definition setLife (m : Machine) (l : Life) : Machine :=
  mkMachine (withLife (doc m) l).
Definition setTools (m : Machine) (t : option ptr) : Machine :=
  mkMachine (withTools (doc m) t).
Definition setInstanceId (m : Machine) (id : string) : Machine :=
  mkMachine (withInstanceId (doc m) id).

(** [AgentTools]: not-found when the cached pointer is nil, else
    [tools := *m.doc.Tools; return &tools, nil]. *)
Definition Machine_AgentTools (m : Machine) : M (option ptr * option error) :=
  match docTools (doc m) with
  | None =>
      mret (None, Some (notFound ("agent tools for machine " +:+ Machine_String m)))
  | Some p =>
      tools ← load (Some p);
      q ← new tools;
      mret (Some q, None)
  end.

(** [SetAgentTools].  The deferred [ErrorContextf] wraps the error of every
    return; [t.Series] dereferences [t], so a nil [t] panics. *)
Definition Machine_SetAgentTools (m : Machine) (t : option ptr)
  : M (Machine * option error) :=
  '(m', err) ← (
    tv ← load t;
    if bool_decide (Series tv = "") || bool_decide (Arch tv = "")
    then mret (m, Some (Errorf "empty series or arch"))
    else
      let ops := [mkOp machines_Name (Id (doc m)) notDead (Set_tools tv)] in
      err ← runner_Run ops;
      match err with
      | Some e => mret (m, Some (onAbort e errNotAlive))
      | None =>
          tools ← load t;
          p ← new tools;
          mret (setTools m (Some p), None)
      end);
  mret (m', ErrorContextf ("cannot set agent tools for machine "
                           +:+ Machine_String m) err).

(** [EnsureDying]: the helper, then [m.doc.Life = Dying] when it returned
    no error. *)
Definition Machine_EnsureDying (m : Machine) : M (Machine * option error) :=
  err ← ensureDying (Id (doc m)) "machine";
  match err with
  | Some e => mret (m, Some e)
  | None => mret (setLife m Dying, None)
  end.

(** [EnsureDead]: the helper, then [m.doc.Life = Dead] when it returned no
    error. *)
Definition Machine_EnsureDead (m : Machine) : M (Machine * option error) :=
  err ← ensureDead (Id (doc m)) "machine";
  match err with
  | Some e => mret (m, Some e)
  | None => mret (setLife m Dead, None)
  end.

(** [Refresh]: [m.doc = doc] when the lookup filled [doc]. *)
Definition Machine_Refresh (m : Machine) : M (Machine * option error) :=
  r ← machines_FindId_One (Id (doc m));
  match r with
  | inr ErrNotFound =>
      mret (m, Some (notFound ("machine " +:+ Machine_String m)))
  | inr e =>
      mret (m, Some (ErrContext ("cannot refresh machine " +:+ Machine_String m) e))
  | inl d => mret (mkMachine d, None)
  end.

(** [InstanceId]: reads the cached field. *)
Definition Machine_InstanceId (m : Machine) : string * option error :=
  if bool_decide (InstanceId (doc m) = "")
  then ("", Some (notFound ("instance id for machine " +:+ Machine_String m)))
  else (InstanceId (doc m), None).

(** [SetInstanceId]: one transaction, then [m.doc.InstanceId = id] when it
    returned no error. *)
Definition Machine_SetInstanceId (m : Machine) (id : string)
  : M (Machine * option error) :=
  let ops := [mkOp machines_Name (Id (doc m)) notDead (Set_instanceid id)] in
  err ← runner_Run ops;
  match err with
  | Some e =>
      mret (m, Some (ErrContext ("cannot set instance id of machine "
                                 +:+ Machine_String m)
                                (onAbort e errNotAlive)))
  | None => mret (setInstanceId m id, None)
  end.

(** ** Presence *)

(** What one [select] of [WaitAgentAlive] resolves to: a [presence.Change] on
    the channel, the timer, or the death of the watcher, with what
    [st.pwatcher.Err()] then returns. *)
Inductive SelectEvent : Set :=
| Change (alive : bool)
| TimedOut
| WatcherDead (err : option error).

(** [ch := make(chan presence.Change)]. *)
Definition makeChan : M nat := fun s =>
  Ret (chans s) (set_chans (S (chans s)) s).

(** [st.pwatcher.Watch(key, ch)] and [st.pwatcher.Unwatch(key, ch)]. *)
Definition pwatcher_Watch (key : string) (ch : nat) : M unit :=
  modify (fun s => set_pwatcher (pwatcher s ++ [(key, ch)]) s).

Definition pwatcher_Unwatch (key : string) (ch : nat) : M unit :=
  modify (fun s =>
    set_pwatcher (filter (fun w => w ≠ (key, ch)) (pwatcher s)) s).

(** The loop [for i := 0; i < 2; i++ { select ... }] with [n] rounds left;
    [sel i] is what the select of round [i] resolves to.  [Some err] is a
    [return err] from inside the loop, [None] is the loop running out. *)
Fixpoint WaitAgentAlive_loop (sel : nat -> SelectEvent) (n i : nat)
  : option (option error) :=
  match n with
  | O => None
  | S n' =>
      match sel i with
      | Change true => Some None
      | Change false => WaitAgentAlive_loop sel n' (S i)
      | TimedOut => Some (Some (Errorf "still not alive after timeout"))
      | WatcherDead err => Some err
      end
  end.

(** [WaitAgentAlive(timeout)].  The timer of [timeout] is one of the three
    cases of the select: when it fires is part of [sel].  The deferred
    [Unwatch] runs on every way out, the panic included. *)
Definition Machine_WaitAgentAlive (m : Machine) (sel : nat -> SelectEvent)
  : M (option error) :=
  ch ← makeChan;
  _ ← pwatcher_Watch (Machine_globalKey m) ch;
  defer (pwatcher_Unwatch (Machine_globalKey m) ch) (
    match WaitAgentAlive_loop sel 2 0 with
    | Some err =>
        mret (ErrorContextf ("waiting for agent of machine "
                             +:+ Machine_String m) err)
    | None =>
        panic ("presence reported dead status twice in a row for machine "
               +:+ Machine_String m)
    end).

(** ** Views of a state, for stating properties *)

(** The I/O error that the next access to the database meets, if any. *)
Definition nextFault (s : State) : option string :=
  match faults s with
  | Some msg :: _ => Some msg
  | _ => None
  end.

(** A cached document with its [Tools] pointer followed: the document as the
    collection would hold it. *)
Definition stored (s : State) (d : machineDoc) : storedDoc :=
  withTools d (docTools d ≫= (mem s !!.)).

(** The state in which [WaitAgentAlive] leaves: one channel made, and its
    subscription, added at the start, removed again. *)
Definition afterWait (m : Machine) (s : State) : State :=
  set_pwatcher
    (filter (λ w, w ≠ (Machine_globalKey m, chans s))
            (pwatcher s ++ [(Machine_globalKey m, chans s)]))
    (set_chans (S (chans s)) s).

End state.

Module remoterelations.

Section Client.

(** [names.IsValidApplication] comes from a library outside the repository:
    the client is embedded for any such test. *)
Variable IsValidApplication : string -> bool.

(** [params.ApplicationRelationsChange], which the client only passes on. *)
Variable ApplicationRelationsChange : Type.

(** [names.NewApplicationTag(service).String()]. *)
Definition NewApplicationTag_String (service : string) : string :=
  "application-" +:+ service.

(** [params.Error]. *)
Record ParamsError : Set := mkParamsError {
  Message : string;
  Code : string
}.

Inductive error : Set :=
| NotValidf (format arg : string)    (* errors.NotValidf(format, arg) *)
| Errorf (msg : string)              (* errors.Errorf *)
| CallError (msg : string)           (* an error of FacadeCall *)
| ResultError (e : ParamsError)      (* a *params.Error returned as error *).

Record Entity : Set := mkEntity { Tag : string }.

Record Entities : Set := mkEntities { EntitiesOf : list Entity }.

Record ApplicationRelationsWatchResult : Type := mkResult {
  ApplicationRelationsWatcherId : string;
  Changes : option ApplicationRelationsChange;
  Error : option ParamsError
}.

Record ApplicationRelationsWatchResults : Type := mkResults {
  Results : list ApplicationRelationsWatchResult
}.

(** [base.FacadeCaller]: [respond] is what the server answers to a request,
    an error of the call or the results it fills in; [calls] records the
    requests made, oldest first. *)
Record FacadeCaller : Type := mkFacade {
  respond : string -> Entities -> error + ApplicationRelationsWatchResults;
  calls : list (string * Entities)
}.

Record State : Type := mkState { facade : FacadeCaller }.

(** [st.facade.FacadeCall(request, args, &results)]. *)
Definition FacadeCall (st : State) (request : string) (args : Entities)
  : State * (error + ApplicationRelationsWatchResults) :=
  (mkState (mkFacade (respond (facade st))
                     (calls (facade st) ++ [(request, args)])),
   respond (facade st) request args).

(** [apiwatcher.NewApplicationRelationsWatcher(caller, result)]: the watcher
    is the value built from the caller and the result. *)
Inductive ApplicationRelationsWatcher : Type :=
| NewApplicationRelationsWatcher (result : ApplicationRelationsWatchResult).

Definition WatchRemoteApplication (st : State) (service : string)
  : State * (option ApplicationRelationsWatcher * option error) :=
  if negb (IsValidApplication service)
  then (st, (None, Some (NotValidf "application name %q" service)))
  else
    let serviceTag := NewApplicationTag_String service in
    let args := mkEntities [mkEntity serviceTag] in
    let '(st', r) := FacadeCall st "WatchRemoteApplication" args in
    match r with
    | inl err => (st', (None, Some err))
    | inr results =>
        match Results results with
        | [result] =>                    (* len(results.Results) == 1 *)
            match Error result with
            | Some e => (st', (None, Some (ResultError e)))
            | None => (st', (Some (NewApplicationRelationsWatcher result), None))
            end
        | _ =>
            (st', (None, Some (Errorf ("expected 1 result, got "
               +:+ state.Itoa (Z.of_nat (length (Results results)))))))
        end
    end.

End Client.

Arguments mkResult {ApplicationRelationsChange}.
Arguments ApplicationRelationsWatcherId {ApplicationRelationsChange}.
Arguments Changes {ApplicationRelationsChange}.
Arguments Error {ApplicationRelationsChange}.
Arguments mkResults {ApplicationRelationsChange}.
Arguments Results {ApplicationRelationsChange}.
Arguments mkFacade {ApplicationRelationsChange}.
Arguments respond {ApplicationRelationsChange}.
Arguments calls {ApplicationRelationsChange}.
Arguments mkState {ApplicationRelationsChange}.
Arguments facade {ApplicationRelationsChange}.
Arguments FacadeCall {ApplicationRelationsChange}.
Arguments NewApplicationRelationsWatcher {ApplicationRelationsChange}.
Arguments WatchRemoteApplication IsValidApplication {ApplicationRelationsChange}.

End remoterelations.

(** * More of package [state]: the units of a machine *)

Module state_more.
Import state.

(** Reading back a decimal numeral: the inverse of [Itoa] on its image. *)
Definition parseDecimal (s : string) : option Z :=
  Z.of_int <$> NilZero.int_of_string s.

(** Modelled from the spec: [unitDoc] is declared outside [machine.go].
    [Units] reads the field [Name] and selects on the keys ["machineid"] and
    ["principal"], the foreign keys of a unit: the machine it is assigned to,
    when it is assigned, and the unit it is subordinate to, or [""]. *)
Record unitDoc : Set := mkUnitDoc {
  Name : string;
  Principal : string;
  MachineId : option Z
}.

(** Modelled from the spec: [Unit] and [newUnit] are outside [machine.go];
    as [newMachine] does, [newUnit(st, &doc)] keeps a copy of [doc]. *)
Record Unit : Set := mkUnit { udoc : unitDoc }.

Definition newUnit (d : unitDoc) : Unit := mkUnit d.

(** The two selectors of [Units]: [D{{"machineid", id}}] and
    [D{{"principal", name}}]. *)
Inductive Selector : Set :=
| by_machineid (id : Z)
| by_principal (name : string).

Definition selects (q : Selector) (d : unitDoc) : bool :=
  match q with
  | by_machineid id => bool_decide (MachineId d = Some id)
  | by_principal name => bool_decide (Principal d = name)
  end.

(** Modelled from the spec: [st.units.Find(q).All(&docs)], a query of the
    document store on a field.  [coll] is the collection of units, in its
    natural order; the query is one access to the database and gives the
    selected documents in that order, or an I/O error. *)
Definition units_Find_All (coll : list unitDoc) (q : Selector)
  : M (list unitDoc + error) :=
  io ← roundTrip;
  match io with
  | Some e => mret (inr e)
  | None => mret (inl (filter (λ d, selects q d = true) coll))
  end.

(** The loop [for _, pudoc := range pudocs] of [Units]; [acc] is [units] so
    far.  A failed query is [return nil, err]. *)
Fixpoint Units_loop (coll : list unitDoc) (pudocs : list unitDoc)
    (acc : list Unit) : M (list Unit * option error) :=
  match pudocs with
  | [] => mret (acc, None)
  | pudoc :: rest =>
      let acc1 := acc ++ [newUnit pudoc] in
      r ← units_Find_All coll (by_principal (Name pudoc));
      match r with
      | inr err => mret ([], Some err)
      | inl docs => Units_loop coll rest (acc1 ++ map newUnit docs)
      end
  end.

(** [Units]: the units assigned to the machine, each followed by the units
    whose principal it is.  The deferred [ErrorContextf] wraps the error of
    every return.  The method only reads the collection of units: its
    content [coll] is an argument. *)
Definition Machine_Units (coll : list unitDoc) (m : Machine)
  : M (list Unit * option error) :=
  '(us, err) ← (
    r ← units_Find_All coll (by_machineid (Id (doc m)));
    match r with
    | inr err => mret ([], Some err)
    | inl pudocs => Units_loop coll pudocs []
    end);
  mret (us, ErrorContextf ("cannot get units assigned to machine "
                           +:+ Machine_String m) err).

(** [newMachine(st, doc)]: the handle keeps a copy of [*doc]. *)
Definition newMachine (d : machineDoc) : Machine := mkMachine d.

(** ** Views, for stating properties *)

(** Two handles agree on every cached field that no method of [Machine]
    assigns. *)
Definition sameFixedFields (m m' : Machine) : Prop :=
  Id (doc m') = Id (doc m) ∧ Principals (doc m') = Principals (doc m) ∧
  TxnRevno (doc m') = TxnRevno (doc m) ∧ Workers (doc m') = Workers (doc m).

(** The state in which a computation ends, by a return or by a panic. *)
Definition finalState {A : Type} (r : Res A) : State :=
  match r with Ret _ s | Panic _ s => s end.

(** Every document of the collection of machines is stored under its own
    id. *)
Definition wellKeyed (s : State) : Prop :=
  ∀ (k : Z) (d : storedDoc), machines s !! k = Some d → Id d = k.

(** The channels of the subscriptions are channels already made. *)
Definition channelsMade (s : State) : Prop :=
  ∀ (key : string) (ch : nat), (key, ch) ∈ pwatcher s → ch < chans s.

(** From one content of the collection to a later one, no document is
    lost, none changes its id, and no [Life] moves backward. *)
Definition advances (ms ms' : gmap Z storedDoc) : Prop :=
  ∀ (k : Z) (d : storedDoc), ms !! k = Some d →
    ∃ d', ms' !! k = Some d' ∧ Id d' = Id d ∧
      Life_rank (docLife d) ≤ Life_rank (docLife d').

(** No I/O error is waiting: every access to the database goes through. *)
Definition reachable (s : State) : Prop :=
  Forall (λ f, f = None) (faults s).

(** The units of machine [id] in a collection: each unit assigned to the
    machine, followed by the units whose principal it is. *)
Definition unitsOf (coll : list unitDoc) (id : Z) : list Unit :=
  p ← filter (λ d, selects (by_machineid id) d = true) coll;
  newUnit p ::
    (newUnit <$> filter (λ d, selects (by_principal (Name p)) d = true) coll).

End state_more.

(** * More of package [remoterelations]: the watcher of applications *)

Module remoteapps.

(** [params.StringsWatchResult]; the error is a [params.Error]. *)
Record StringsWatchResult : Set := mkStringsResult {
  StringsWatcherId : string;
  Changes : list string;
  Error : option remoterelations.ParamsError
}.

(** [base.FacadeCaller] for the request of this method, which has no
    arguments: [respond] is what the server answers, an error of the call or
    the result it fills in; [calls] records the requests made. *)
Record FacadeCaller : Set := mkFacade {
  respond : string -> remoterelations.error + StringsWatchResult;
  calls : list string
}.

Record State : Set := mkState { facade : FacadeCaller }.

(** [base.NewFacadeCaller(caller, remoteRelationsFacade)] followed by
    [&State{facadeCaller}]: the client of a caller that has made no call. *)
Definition NewState
    (caller : string -> remoterelations.error + StringsWatchResult) : State :=
  mkState (mkFacade caller []).

(** [st.facade.FacadeCall(request, nil, &result)]. *)
Definition FacadeCall (st : State) (request : string)
  : State * (remoterelations.error + StringsWatchResult) :=
  (mkState (mkFacade (respond (facade st)) (calls (facade st) ++ [request])),
   respond (facade st) request).

(** [apiwatcher.NewStringsWatcher(caller, result)]. *)
Inductive StringsWatcher : Set :=
| NewStringsWatcher (result : StringsWatchResult).

Definition WatchRemoteApplications (st : State)
  : State * (option StringsWatcher * option remoterelations.error) :=
  let '(st', r) := FacadeCall st "WatchRemoteApplications" in
  match r with
  | inl err => (st', (None, Some err))
  | inr result =>
      match Error result with
      | Some e => (st', (None, Some (remoterelations.ResultError e)))
      | None => (st', (Some (NewStringsWatcher result), None))
      end
  end.

End remoteapps.

(** * Package [cmd]: running a command *)

Module cmd.

(** The errors that [Main] tells apart, by identity as the code does:
    [gnuflag.ErrHelp], [ErrSilent], and any other error, by its text. *)
Inductive error : Set :=
| ErrHelp
| ErrSilent
| Errorf (msg : string).

#[global] Instance error_eq_dec : EqDecision error.
Proof. solve_decision. Defined.

(** The newline character. *)
Definition nl : string := String (Ascii.ascii_of_nat 10) EmptyString.

(** [Info]. *)
Record Info : Set := mkInfo {
  Name : string;
  Args : string;
  Purpose : string;
  Doc : string;
  Aliases : list string
}.

(** [Context]: [Stdout] and [Stderr] hold what has been written to them,
    [Stdin] what is there to read. *)
Record Context : Set := mkContext {
  Dir : string;
  Stdin : string;
  Stdout : string;
  Stderr : string
}.

(** [fmt.Fprintf(ctx.Stderr, ...)] and [ctx.Stderr.Write(...)]. *)
Definition writeStderr (ctx : Context) (text : string) : Context :=
  mkContext (Dir ctx) (Stdin ctx) (Stdout ctx) (Stderr ctx +:+ text).

(** Where a flag set prints: [ioutil.Discard], or the buffer of [Help]. *)
Inductive Output : Set := Discard | ToBuffer.

(** What the package takes from [gnuflag], [strings], [fmt] and
    [path/filepath], for a type [FlagSet] of flag sets.
    - [NewFlagSet name] is [gnuflag.NewFlagSet(name, ContinueOnError)];
    - [hasFlags f] tells whether [f.VisitAll] visits a flag;
    - [PrintDefaults f] is the text that [f.PrintDefaults()] prints;
    - [Parse allowIntersperse args f] is [f.Parse(allowIntersperse, args)];
    - [FlagSet_Args f] is [f.Args()];
    - [helpText] is the text of [gnuflag.ErrHelp];
    - [quoted args] is [args] under the verb [%q]. *)
Class External (FlagSet : Type) : Type := {
  NewFlagSet : string -> FlagSet;
  SetOutput : Output -> FlagSet -> FlagSet;
  hasFlags : FlagSet -> bool;
  PrintDefaults : FlagSet -> string;
  Parse : bool -> list string -> FlagSet -> FlagSet * option error;
  FlagSet_Args : FlagSet -> list string;
  helpText : string;
  TrimSpace : string -> string;
  quoted : list string -> string;
  IsAbs : string -> bool;
  Join : string -> string -> string
}.

(** The interface [Command], for commands of type [C]: a method with a
    pointer receiver returns the command as it leaves it.
    [isSuperCommand c] is the type assertion of [c] to a [SuperCommand]. *)
Class Command (FlagSet C : Type) : Type := {
  Info_of : C -> Info;
  SetFlags : C -> FlagSet -> C * FlagSet;
  Init : C -> list string -> C * option error;
  Run : C -> Context -> C * Context * option error;
  isSuperCommand : C -> bool
}.

Section Cmd.

Context {FlagSet : Type} {E : External FlagSet}.

(** [err.Error()]. *)
Definition Error (e : error) : string :=
  match e with
  | ErrHelp => helpText
  | ErrSilent => "cmd: error out silently"
  | Errorf msg => msg
  end.

(** [CheckEmpty]. *)
Definition CheckEmpty (args : list string) : option error :=
  if bool_decide (length args ≠ 0)
  then Some (Errorf ("unrecognized args: " +:+ quoted args))
  else None.

(** [CommandBase]: [SetFlags] does nothing, [Init] wants no arguments. *)
Definition CommandBase_SetFlags (f : FlagSet) : FlagSet := f.

Definition CommandBase_Init (args : list string) : option error :=
  CheckEmpty args.

(** [Context.AbsPath]. *)
Definition Context_AbsPath (ctx : Context) (path : string) : string :=
  if IsAbs path then path else Join (Dir ctx) path.

(** [Info.Help]: the text, and the flag set as the method leaves it. *)
Definition Info_Help (i : Info) (f : FlagSet) : string * FlagSet :=
  let buf := "usage: " +:+ Name i in
  let hasOptions := hasFlags f in
  let buf := if hasOptions then buf +:+ " [options]" else buf in
  let buf := if bool_decide (Args i ≠ "") then buf +:+ " " +:+ Args i else buf in
  let buf := buf +:+ nl in
  let buf := if bool_decide (Purpose i ≠ "")
             then buf +:+ "purpose: " +:+ Purpose i +:+ nl else buf in
  let '(buf, f) :=
    if hasOptions
    then (buf +:+ nl +:+ "options:" +:+ nl
              +:+ PrintDefaults (SetOutput ToBuffer f),
          SetOutput ToBuffer f)
    else (buf, f) in
  let f := SetOutput Discard f in
  let buf := if bool_decide (Doc i ≠ "")
             then buf +:+ nl +:+ TrimSpace (Doc i) +:+ nl else buf in
  let buf := if bool_decide (0 < length (Aliases i))
             then buf +:+ nl +:+ "aliases: "
                      +:+ String.concat ", " (Aliases i) +:+ nl
             else buf in
  (buf, f).

Context {C : Type} {Cmd : Command FlagSet C}.

(** [ParseArgs]. *)
Definition ParseArgs (c : C) (f : FlagSet) (args : list string)
  : FlagSet * option error :=
  Parse (negb (isSuperCommand c)) args f.

(** [handleCommandError]: the code and whether [Main] is done, with the
    context and the flag set as the function leaves them. *)
Definition handleCommandError (c : C) (ctx : Context) (err : option error)
    (f : FlagSet) : (Z * bool) * Context * FlagSet :=
  match err with
  | Some ErrHelp =>
      let '(help, f') := Info_Help (Info_of c) f in
      ((0%Z, true), writeStderr ctx help, f')
  | Some e =>
      ((2%Z, true), writeStderr ctx ("error: " +:+ Error e +:+ nl), f)
  | None => ((0%Z, false), ctx, f)
  end.

(** [Main]: the exit code, with the command, the context and the log (the
    lines of [log.Printf], oldest first) as it leaves them. *)
Definition Main (c : C) (ctx : Context) (args : list string)
    (log : list string) : Z * C * Context * list string :=
  let f := SetOutput Discard (NewFlagSet (Name (Info_of c))) in
  let '(c, f) := SetFlags c f in
  let '(f, perr) := ParseArgs c f args in
  let '((rc, done), ctx, f) := handleCommandError c ctx perr f in
  if done then (rc, c, ctx, log) else
  let '(c, ierr) := Init c (FlagSet_Args f) in
  let '((rc, done), ctx, f) := handleCommandError c ctx ierr f in
  if done then (rc, c, ctx, log) else
  let '(c, ctx, rerr) := Run c ctx in
  match rerr with
  | Some err =>
      if bool_decide (err ≠ ErrSilent)
      then (1%Z, c,
            writeStderr ctx ("error: " +:+ Error err +:+ nl),
            log ++ [Name (Info_of c) +:+ " command failed: "
                    +:+ Error err +:+ nl])
      else (1%Z, c, ctx, log)
  | None => (0%Z, c, ctx, log)
  end.

End Cmd.

End cmd.

(** Sample values, used to run the embedding. *)
Module sample.
Import state.

Definition precise : Tools :=
  mkTools "precise" "amd64" "http://juju.example/tools/precise-amd64.tgz".

Definition noSeries : Tools := mkTools "" "amd64" "".

(** A state with machine 0 alive, no tools set, and two [Tools] objects in
    memory, at addresses 0 and 1. *)
Definition st0 : State :=
  state.mkState [precise; noSeries]
    {[ 0%Z := mkDoc 0%Z "" [] Alive None 0%Z ["machiner"] ]} [] [] [] 0.

(** A handle on machine 0, as [newMachine] makes it from that document. *)
Definition m0 : Machine :=
  mkMachine (mkDoc 0%Z "" [] Alive None 0%Z ["machiner"]).

(** The selects of a wait that receives one alive report, in the first
    round, and not-alive reports ever after. *)
Definition aliveOnce : nat → SelectEvent :=
  λ i, match i with 0 => Change true | _ => Change false end.

(** The same state with an I/O error waiting for the next access. *)
Definition st0_faulty : State := set_faults [Some "EOF"] st0.

(** A validity test for application names, in place of the library's:
    a lower-case letter, then lower-case letters, digits and hyphens. *)
Definition isLower (c : Ascii.ascii) : bool :=
  let n := Ascii.nat_of_ascii c in (97 <=? n)%nat && (n <=? 122)%nat.
Definition isDigit (c : Ascii.ascii) : bool :=
  let n := Ascii.nat_of_ascii c in (48 <=? n)%nat && (n <=? 57)%nat.
Fixpoint allNameChars (s : string) : bool :=
  match s with
  | EmptyString => true
  | String c r =>
      (isLower c || isDigit c || (Ascii.nat_of_ascii c =? 45)%nat) && allNameChars r
  end.
Definition IsValidApplication (s : string) : bool :=
  match s with
  | EmptyString => false
  | String c r => isLower c && allNameChars r
  end.

(** A facade whose server answers every request with one result that has no
    error. *)
Definition oneResult : remoterelations.ApplicationRelationsWatchResult unit :=
  remoterelations.mkResult "1" None None.

Definition facade0 : remoterelations.State unit :=
  remoterelations.mkState
    (remoterelations.mkFacade
       (fun _ _ => inr (remoterelations.mkResults [oneResult])) []).

End sample.

(** More sample values: a collection of units, a flag set and a command. *)
Module sample_more.
Import state state_more.

(** Machine 0 carries wordpress/0 and, under it, logging/0; mysql/0 is on
    machine 1. *)
Definition coll0 : list unitDoc :=
  [ mkUnitDoc "wordpress/0" "" (Some 0%Z);
    mkUnitDoc "logging/0" "wordpress/0" None;
    mkUnitDoc "mysql/0" "" (Some 1%Z) ].


(** A flag set with no flags: what is left of the arguments, and where it
    prints. *)
Record flagSet : Set := mkFlagSet { rest : list string; out : cmd.Output }.

(** Stand-ins for the libraries: the parser asks for help on [--help] and
    otherwise leaves every argument as a positional one; paths are absolute
    when they start with a slash. *)
#[global] Instance sampleExternal : cmd.External flagSet := {|
  cmd.NewFlagSet := λ _, mkFlagSet [] cmd.Discard;
  cmd.SetOutput := λ o f, mkFlagSet (rest f) o;
  cmd.hasFlags := λ _, false;
  cmd.PrintDefaults := λ _, "";
  cmd.Parse := λ _ args f,
    if bool_decide (args = ["--help"])
    then (f, Some cmd.ErrHelp)
    else (mkFlagSet args (out f), None);
  cmd.FlagSet_Args := rest;
  cmd.helpText := "flag: help requested";
  cmd.TrimSpace := λ s, s;
  cmd.quoted := λ args, "[" +:+ String.concat " " args +:+ "]";
  cmd.IsAbs := λ p,
    match p with
    | String c _ => (Ascii.nat_of_ascii c =? 47)%nat
    | EmptyString => false
    end;
  cmd.Join := λ d p, d +:+ "/" +:+ p
|}.

(** A command on [CommandBase] that prints a line and fails silently when
    its state is [false]. *)
#[global] Instance sampleCommand : cmd.Command flagSet bool := {|
  cmd.Info_of := λ _, cmd.mkInfo "status" "" "show the status" "" [];
  cmd.SetFlags := λ c f, (c, cmd.CommandBase_SetFlags f);
  cmd.Init := λ c args, (c, cmd.CommandBase_Init args);
  cmd.Run := λ (c : bool) (ctx : cmd.Context),
    if c
    then (c, cmd.mkContext (cmd.Dir ctx) (cmd.Stdin ctx)
                (cmd.Stdout ctx +:+ "ok") (cmd.Stderr ctx),
          @None cmd.error)
    else (c, ctx, Some cmd.ErrSilent);
  cmd.isSuperCommand := λ _, false
|}.

Definition ctx0 : cmd.Context := cmd.mkContext "/home/ubuntu" "" "" "".

(** A server that answers the watch of applications with a result without
    error. *)
Definition appsResult : remoteapps.StringsWatchResult :=
  remoteapps.mkStringsResult "7" ["mysql"] None.

Definition apps0 : remoteapps.State :=
  remoteapps.NewState (λ _, inr appsResult).

End sample_more.

Import state sample.

(** * Properties of the machine handle *)

(** ** Running the embedding *)

Example Itoa_examples :
  Itoa 0 = "0" ∧ Itoa 42 = "42" ∧ Itoa (-7) = "-7".
Proof. by vm_compute. Qed.

Example globalKey_example : Machine_globalKey m0 = "m#0".
Proof. reflexivity. Qed.

(** A nil [*Tools] makes [SetAgentTools] panic at [t.Series]. *)
Example SetAgentTools_nil_panics :
  Machine_SetAgentTools m0 None st0
    = Panic "invalid memory address or nil pointer dereference" st0.
Proof. reflexivity. Qed.

(** An I/O error of the runner: the transaction is logged, nothing is
    written, and the handle is the one it was. *)
Example SetAgentTools_io_error :
  ∃ s', Machine_SetAgentTools m0 (Some 0) st0_faulty
          = Ret (m0, Some (ErrContext "cannot set agent tools for machine 0"
                                      (Errorf "EOF"))) s' ∧
        machines s' = machines st0 ∧ length (runner s') = 1.
Proof. eexists. split; [reflexivity|]. split; reflexivity. Qed.

(** A machine that is Dead refuses the write: [ErrAborted] becomes
    [errNotAlive]. *)
Example SetInstanceId_on_dead :
  ∃ s1 s2,
    Machine_EnsureDead m0 st0 = Ret (setLife m0 Dead, None) s1 ∧
    Machine_SetInstanceId (setLife m0 Dead) "i-123" s1
      = Ret (setLife m0 Dead,
             Some (ErrContext "cannot set instance id of machine 0"
                              errNotAlive)) s2 ∧
    machines s2 = machines s1.
Proof. eexists _, _. split; [reflexivity|]. split; reflexivity. Qed.

(** The three ways out of [WaitAgentAlive] other than success. *)
Example WaitAgentAlive_examples :
  Machine_WaitAgentAlive m0 (λ _, TimedOut) st0
    = Ret (Some (ErrContext "waiting for agent of machine 0"
                            (Errorf "still not alive after timeout")))
          (afterWait m0 st0)
  ∧ Machine_WaitAgentAlive m0 (λ _, WatcherDead (Some (Errorf "watcher stopped"))) st0
    = Ret (Some (ErrContext "waiting for agent of machine 0"
                            (Errorf "watcher stopped")))
          (afterWait m0 st0)
  ∧ pwatcher (afterWait m0 st0) = [].
Proof. split; [reflexivity|]. split; reflexivity. Qed.

(** ** The runner and the database accesses *)

Lemma roundTrip_ret (s : State) :
  ∃ s', roundTrip s = Ret (Errorf <$> nextFault s) s' ∧ mem s' = mem s ∧
    machines s' = machines s ∧ runner s' = runner s ∧
    pwatcher s' = pwatcher s ∧ chans s' = chans s.
Proof.
  unfold roundTrip, nextFault.
  destruct (faults s) as [|[msg|] fs]; simpl; eauto 10.
Qed.

(** A run always returns; it is logged once, it leaves the memory alone, and
    it changes the collection only when it reports no error. *)
Lemma runner_Run_ret (ops : list Op) (s : State) :
  ∃ err s', runner_Run ops s = Ret err s' ∧
    runner s' = runner s ++ [ops] ∧ mem s' = mem s ∧
    pwatcher s' = pwatcher s ∧ chans s' = chans s ∧
    match err with
    | Some _ => machines s' = machines s
    | None => forallb (opHolds (machines s)) ops = true ∧
              machines s' = foldl applyOp (machines s) ops
    end.
Proof.
  unfold runner_Run, mbind, M_bind, modify, gets, mret, M_ret.
  destruct (roundTrip_ret (set_runner (runner s ++ [ops]) s))
    as (s1 & -> & Hmem & Hms & Hrun & Hpw & Hch).
  simpl in *.
  destruct (Errorf <$> nextFault (set_runner (runner s ++ [ops]) s)) as [e|].
  - exists (Some e), s1. auto 10.
  - rewrite Hms.
    destruct (forallb (opHolds (machines s)) ops) eqn:Hall.
    + eexists None, _. simpl. auto 10.
    + exists (Some ErrAborted), s1. auto 10.
Qed.

Lemma load_Some (p : ptr) (tv : Tools) (s : State) :
  mem s !! p = Some tv → load (Some p) s = Ret tv s.
Proof. intros H. unfold load. simpl. by rewrite H. Qed.

(** ** Mutators *)

(** C4.  [SetInstanceId] and [SetAgentTools] (on tools that pass the check of
    series and arch) hand the runner one transaction of one operation, on the
    machine's document, asserting [notDead].  When the runner returns an
    error the mutator returns an error and the handle is the one it was; when
    the runner returns no error the mutator returns none and the cached field
    holds the value written: the instance id, or a pointer to an object equal
    to the tools passed. *)
Theorem C4_mutators_commit_then_cache (m : Machine) (s : State) :
  (∀ id : string,
     let op := mkOp machines_Name (Id (doc m)) notDead (Set_instanceid id) in
     ∃ err s', runner_Run [op] s = Ret err s' ∧
       runner s' = runner s ++ [[op]] ∧
       match err with
       | Some _ => ∃ e, Machine_SetInstanceId m id s = Ret (m, Some e) s'
       | None =>
           ∃ m', Machine_SetInstanceId m id s = Ret (m', None) s' ∧
             m' = setInstanceId m id ∧ InstanceId (doc m') = id
       end)
  ∧
  (∀ (t : ptr) (tv : Tools),
     mem s !! t = Some tv → Series tv ≠ "" → Arch tv ≠ "" →
     let op := mkOp machines_Name (Id (doc m)) notDead (Set_tools tv) in
     ∃ err s', runner_Run [op] s = Ret err s' ∧
       runner s' = runner s ++ [[op]] ∧
       match err with
       | Some _ => ∃ e, Machine_SetAgentTools m (Some t) s = Ret (m, Some e) s'
       | None =>
           ∃ m' p s'', Machine_SetAgentTools m (Some t) s = Ret (m', None) s'' ∧
             m' = setTools m (Some p) ∧ docTools (doc m') = Some p ∧
             mem s'' !! p = Some tv ∧
             machines s'' = machines s' ∧ runner s'' = runner s'
       end).
Proof.
  split.
  - intros id op.
    destruct (runner_Run_ret [op] s) as (err & s' & Hrun & Hlog & _).
    exists err, s'. split; [done|]. split; [done|].
    unfold Machine_SetInstanceId, mbind, M_bind, mret, M_ret.
    fold op. rewrite Hrun. destruct err as [e|]; eauto.
  - intros t tv Ht HS HA op.
    destruct (runner_Run_ret [op] s) as (err & s' & Hrun & Hlog & Hmem & _).
    exists err, s'. split; [done|]. split; [done|].
    unfold Machine_SetAgentTools, mbind, M_bind, mret, M_ret.
    rewrite (load_Some t tv s Ht).
    rewrite !bool_decide_eq_false_2 by done. simpl.
    fold op. rewrite Hrun. destruct err as [e|]; [eauto|].
    assert (Ht' : mem s' !! t = Some tv) by (by rewrite Hmem).
    rewrite (load_Some t tv s' Ht').
    exists (setTools m (Some (length (mem s')))), (length (mem s')),
      (set_mem (mem s' ++ [tv]) s').
    simpl. repeat split; try done.
    rewrite lookup_app_r by lia. by rewrite Nat.sub_diag.
Qed.

Lemma C4_mutators_commit_then_cache_witness :
  mem st0 !! 0 = Some precise ∧ Series precise ≠ "" ∧ Arch precise ≠ "" ∧
  ∃ err s',
    runner_Run [mkOp machines_Name 0%Z notDead (Set_tools precise)] st0
      = Ret err s' ∧
    runner s' = runner st0
                ++ [[mkOp machines_Name 0%Z notDead (Set_tools precise)]] ∧
    match err with
    | Some _ => ∃ e, Machine_SetAgentTools m0 (Some 0) st0 = Ret (m0, Some e) s'
    | None =>
        ∃ m' p s'', Machine_SetAgentTools m0 (Some 0) st0 = Ret (m', None) s'' ∧
          m' = setTools m0 (Some p) ∧ docTools (doc m') = Some p ∧
          mem s'' !! p = Some precise ∧
          machines s'' = machines s' ∧ runner s'' = runner s'
    end.
Proof.
  assert (H1 : mem st0 !! 0 = Some precise) by reflexivity.
  assert (H2 : Series precise ≠ "") by (vm_compute; discriminate).
  assert (H3 : Arch precise ≠ "") by (vm_compute; discriminate).
  exact (conj H1 (conj H2 (conj H3
    (proj2 (C4_mutators_commit_then_cache m0 st0) 0 precise H1 H2 H3)))).
Defined.

(** ** Validation *)

(** C6.  A name that [IsValidApplication] refuses makes
    [WatchRemoteApplication] return a not-valid error with the client state
    as it was: no request went to the facade.  Tools with an empty series or
    an empty arch make [SetAgentTools] return an error with the handle and
    the whole state as they were: no transaction went to the runner and the
    database was not accessed. *)
Theorem C6_validation_before_io :
  (∀ (valid : string → bool) (Chg : Type) (st : remoterelations.State Chg)
     (service : string),
     valid service = false →
     remoterelations.WatchRemoteApplication valid st service
       = (st, (None, Some (remoterelations.NotValidf "application name %q"
                                                     service))))
  ∧
  (∀ (m : Machine) (s : State) (t : ptr) (tv : Tools),
     mem s !! t = Some tv → Series tv = "" ∨ Arch tv = "" →
     ∃ e, Machine_SetAgentTools m (Some t) s = Ret (m, Some e) s).
Proof.
  split.
  - intros valid Chg st service Hv.
    unfold remoterelations.WatchRemoteApplication. by rewrite Hv.
  - intros m s t tv Ht Hempty.
    unfold Machine_SetAgentTools, mbind, M_bind, mret, M_ret.
    rewrite (load_Some t tv s Ht).
    assert (Hb : bool_decide (Series tv = "") || bool_decide (Arch tv = "")
                 = true).
    { destruct Hempty as [H|H]; rewrite (bool_decide_eq_true_2 _ H);
        [done | apply orb_true_r]. }
    rewrite Hb. simpl. eauto.
Qed.

Lemma C6_validation_before_io_witness :
  (IsValidApplication "My SQL" = false ∧
   remoterelations.WatchRemoteApplication IsValidApplication facade0 "My SQL"
     = (facade0, (None, Some (remoterelations.NotValidf "application name %q"
                                                        "My SQL"))))
  ∧
  (mem st0 !! 1 = Some noSeries ∧ (Series noSeries = "" ∨ Arch noSeries = "") ∧
   ∃ e, Machine_SetAgentTools m0 (Some 1) st0 = Ret (m0, Some e) st0).
Proof.
  assert (H1 : IsValidApplication "My SQL" = false) by reflexivity.
  assert (H2 : mem st0 !! 1 = Some noSeries) by reflexivity.
  assert (H3 : Series noSeries = "" ∨ Arch noSeries = "")
    by (left; reflexivity).
  split.
  - exact (conj H1 (proj1 C6_validation_before_io
                      IsValidApplication unit facade0 "My SQL" H1)).
  - exact (conj H2 (conj H3 (proj2 C6_validation_before_io
                               m0 st0 1 noSeries H2 H3))).
Defined.

(** ** Refresh *)

Lemma roundTrip_ok (s : State) :
  nextFault s = None →
  ∃ s', roundTrip s = Ret None s' ∧ mem s' = mem s ∧
    machines s' = machines s ∧ runner s' = runner s ∧
    pwatcher s' = pwatcher s.
Proof.
  intros H.
  destruct (roundTrip_ret s) as (s' & Hr & Hmem & Hms & Hrun & Hpw & _).
  rewrite H in Hr. exists s'. auto.
Qed.

(** What [FindId(id).One(&doc)] gives, by the content of the collection. *)
Lemma machines_FindId_One_ret (id : Z) (s : State) :
  ∃ r s', machines_FindId_One id s = Ret r s' ∧ machines s' = machines s ∧
    runner s' = runner s ∧
    match r with
    | inl d => ∃ d0, machines s !! id = Some d0 ∧ stored s' d = d0
    | inr ErrNotFound => machines s !! id = None ∧ mem s' = mem s
    | inr _ => mem s' = mem s
    end.
Proof.
  unfold machines_FindId_One, mbind, M_bind, gets, mret, M_ret.
  destruct (roundTrip_ret s) as (s1 & -> & Hmem & Hms & Hrun & _).
  destruct (nextFault s) as [msg|]; simpl.
  - exists (inr (Errorf msg)), s1. auto.
  - rewrite Hms. destruct (machines s !! id) as [d0|] eqn:Hd.
    + unfold unmarshal, mbind, M_bind, mret, M_ret, new.
      destruct d0 as [i iid pr l [t|] rev w]; simpl.
      * eexists (inl _), _. repeat split; try done.
        eexists. split; [done|]. unfold stored. simpl.
        rewrite lookup_app_r by lia. by rewrite Nat.sub_diag.
      * eexists (inl _), s1.
        repeat split; try done. eexists. split; done.
    + exists (inr ErrNotFound), s1. auto.
Qed.

(** C7.  When the database access goes through, [Refresh] looks the
    document up under the handle's id.  If it is there, [Refresh] returns no
    error and the whole cached document is the fetched one (its [Tools]
    pointer leads to the stored tools); nothing of the old snapshot is kept.
    If it is not there, [Refresh] returns the not-found error for the machine
    and the handle is the one it was. *)
Theorem C7_Refresh_replaces_or_NotFound (m : Machine) (s : State) :
  nextFault s = None →
  match machines s !! Id (doc m) with
  | Some d =>
      ∃ m' s', Machine_Refresh m s = Ret (m', None) s' ∧
        stored s' (doc m') = d ∧ machines s' = machines s
  | None =>
      ∃ s', Machine_Refresh m s
              = Ret (m, Some (notFound ("machine " +:+ Machine_String m))) s' ∧
        isNotFound (Some (notFound ("machine " +:+ Machine_String m))) = true ∧
        machines s' = machines s ∧ mem s' = mem s
  end.
Proof.
  intros Hio.
  unfold Machine_Refresh, machines_FindId_One, mbind, M_bind, gets, mret, M_ret.
  destruct (roundTrip_ok s Hio) as (s1 & -> & Hmem & Hms & _).
  rewrite Hms. destruct (machines s !! Id (doc m)) as [d|] eqn:Hd.
  - unfold unmarshal, mbind, M_bind, mret, M_ret, new.
    destruct d as [i iid pr l [t|] rev w]; simpl.
    + eexists _, _. split; [reflexivity|]. split; [|done].
      unfold stored. simpl. rewrite lookup_app_r by lia.
      by rewrite Nat.sub_diag.
    + eexists _, _. split; [reflexivity|]. split; done.
  - exists s1. auto.
Qed.

Lemma C7_Refresh_replaces_or_NotFound_witness :
  nextFault st0 = None ∧
  ∃ m' s', Machine_Refresh (setInstanceId m0 "stale") st0 = Ret (m', None) s' ∧
    stored s' (doc m') = mkDoc 0%Z "" [] Alive None 0%Z ["machiner"] ∧
    machines s' = machines st0.
Proof.
  assert (H : nextFault st0 = None) by reflexivity.
  exact (conj H (C7_Refresh_replaces_or_NotFound (setInstanceId m0 "stale") st0 H)).
Defined.

(** ** Instance id *)

(** A successful [SetInstanceId] has written the id in the stored document,
    which was there and not Dead. *)
Lemma SetInstanceId_commits (m m1 : Machine) (id : string) (s s1 : State) :
  Machine_SetInstanceId m id s = Ret (m1, None) s1 →
  m1 = setInstanceId m id ∧
  ∃ d, machines s !! Id (doc m) = Some d ∧ docLife d ≠ Dead ∧
    machines s1 !! Id (doc m)
      = Some (withTxnRevno (withInstanceId d id) (TxnRevno d + 1)%Z).
Proof.
  unfold Machine_SetInstanceId, mbind, M_bind, mret, M_ret.
  set (op := mkOp _ _ _ _).
  destruct (runner_Run_ret [op] s) as (err & s' & -> & _ & _ & _ & _ & Hms).
  destruct err as [e|]; [discriminate|].
  intros [= <- <-]. split; [done|].
  destruct Hms as [Hall Hms]. simpl in Hall, Hms.
  rewrite andb_true_r in Hall. unfold opHolds in Hall. simpl in Hall.
  destruct (machines s !! Id (doc m)) as [d|] eqn:Hd; [|discriminate].
  exists d. split; [done|]. split.
  - by apply bool_decide_eq_true_1 in Hall.
  - rewrite Hms. unfold applyOp. simpl. by rewrite lookup_alter_eq, Hd.
Qed.

(** After a successful [SetInstanceId] and a successful [Refresh], the cached
    instance id is the one written. *)
Lemma SetInstanceId_Refresh (m m1 m2 : Machine) (id : string)
    (s s1 s2 : State) :
  Machine_SetInstanceId m id s = Ret (m1, None) s1 →
  Machine_Refresh m1 s1 = Ret (m2, None) s2 →
  InstanceId (doc m2) = id.
Proof.
  intros Hset Href.
  apply SetInstanceId_commits in Hset as (-> & d & _ & _ & Hd1).
  unfold Machine_Refresh, mbind, M_bind, mret, M_ret in Href.
  destruct (machines_FindId_One_ret (Id (doc (setInstanceId m id))) s1)
    as (r & s' & Hfind & _ & _ & Hr).
  rewrite Hfind in Href. destruct r as [d2|e].
  - injection Href as <- <-. destruct Hr as (d0 & Hd0 & Hst).
    simpl in Hd0. rewrite Hd1 in Hd0. injection Hd0 as <-.
    apply (f_equal InstanceId) in Hst. exact Hst.
  - destruct e; discriminate.
Qed.

(** C5.  If [SetInstanceId("i-123")] returns no error on a machine whose
    document is in the collection and not Dead, and the [Refresh] that
    follows returns no error, then [InstanceId()] returns ["i-123"] and no
    error. *)
Theorem C5_SetInstanceId_Refresh_roundtrip (m m1 m2 : Machine)
    (s s1 s2 : State) (d : storedDoc) :
  machines s !! Id (doc m) = Some d → docLife d ≠ Dead →
  Machine_SetInstanceId m "i-123" s = Ret (m1, None) s1 →
  Machine_Refresh m1 s1 = Ret (m2, None) s2 →
  Machine_InstanceId m2 = ("i-123", None).
Proof.
  intros _ _ Hset Href. unfold Machine_InstanceId.
  by rewrite (SetInstanceId_Refresh m m1 m2 "i-123" s s1 s2 Hset Href).
Qed.

Lemma C5_SetInstanceId_Refresh_roundtrip_witness :
  ∃ (m1 m2 : Machine) (s1 s2 : State) (d : storedDoc),
    machines st0 !! Id (doc m0) = Some d ∧ docLife d ≠ Dead ∧
    Machine_SetInstanceId m0 "i-123" st0 = Ret (m1, None) s1 ∧
    Machine_Refresh m1 s1 = Ret (m2, None) s2 ∧
    Machine_InstanceId m2 = ("i-123", None).
Proof.
  eexists _, _, _, _, _.
  assert (H1 : machines st0 !! Id (doc m0)
               = Some (mkDoc 0%Z "" [] Alive None 0%Z ["machiner"]))
    by reflexivity.
  assert (H2 : docLife (mkDoc (T := Tools) 0%Z "" [] Alive None 0%Z
                              ["machiner"]) ≠ Dead)
    by discriminate.
  pose proof (eq_refl : Machine_SetInstanceId m0 "i-123" st0
                        = Ret (setInstanceId m0 "i-123", None) _) as H3.
  lazymatch type of H3 with
  | _ = Ret _ ?s1 =>
      pose proof (eq_refl : Machine_Refresh (setInstanceId m0 "i-123") s1
                            = Ret (_, None) _) as H4
  end.
  exact (conj H1 (conj H2 (conj H3 (conj H4
    (C5_SetInstanceId_Refresh_roundtrip _ _ _ _ _ _ _ H1 H2 H3 H4))))).
Defined.

(** C8.  [InstanceId()] returns the not-found error exactly when the cached
    instance id is the empty string, and otherwise the cached value with no
    error.  So after a successful [SetInstanceId("")] the accessor reports
    not-found, and it still does after a successful [Refresh]: the round trip
    of writing and reading back does not hold for the empty string. *)
Theorem C8_InstanceId_empty_is_NotFound (m : Machine) :
  (InstanceId (doc m) = "" ↔ isNotFound (Machine_InstanceId m).2 = true)
  ∧ (InstanceId (doc m) = "" →
     Machine_InstanceId m
       = ("", Some (notFound ("instance id for machine " +:+ Machine_String m))))
  ∧ (InstanceId (doc m) ≠ "" →
     Machine_InstanceId m = (InstanceId (doc m), None))
  ∧ (∀ (s s1 : State) (m1 : Machine),
       Machine_SetInstanceId m "" s = Ret (m1, None) s1 →
       (Machine_InstanceId m1).1 = "" ∧
       isNotFound (Machine_InstanceId m1).2 = true ∧
       ∀ (m2 : Machine) (s2 : State),
         Machine_Refresh m1 s1 = Ret (m2, None) s2 →
         (Machine_InstanceId m2).1 = "" ∧
         isNotFound (Machine_InstanceId m2).2 = true).
Proof.
  unfold Machine_InstanceId. split; [split|split; [|split]].
  - intros ->. done.
  - case_bool_decide; [done | discriminate].
  - intros ->. done.
  - intros Hne. by rewrite bool_decide_eq_false_2.
  - intros s s1 m1 Hset.
    pose proof (SetInstanceId_commits _ _ _ _ _ Hset) as (Hm1 & _).
    split; [by rewrite Hm1|]. split; [by rewrite Hm1|].
    intros m2 s2 Href.
    by rewrite (SetInstanceId_Refresh _ _ _ _ _ _ _ Hset Href).
Qed.

Lemma C8_InstanceId_empty_is_NotFound_witness :
  ∃ (m1 : Machine) (s1 : State),
    Machine_SetInstanceId m0 "" st0 = Ret (m1, None) s1 ∧
    (Machine_InstanceId m1).1 = "" ∧
    isNotFound (Machine_InstanceId m1).2 = true.
Proof.
  eexists _, _.
  pose proof (eq_refl : Machine_SetInstanceId m0 "" st0
                        = Ret (setInstanceId m0 "", None) _) as H.
  destruct (C8_InstanceId_empty_is_NotFound m0) as (_ & _ & _ & Hset).
  destruct (Hset _ _ _ H) as (Hv & He & _).
  exact (conj H (conj Hv He)).
Defined.

(** ** Agent tools *)

(** C9.  [AgentTools()] returns the not-found error (and a nil pointer)
    when the cached [Tools] pointer is nil.  When it points to tools, the
    method returns no error and a pointer [q] to a new object: [q] is not the
    cached pointer, it was not in use before the call, the object it points
    to equals the cached tools, and a write through [q] leaves the tools of
    the handle as they were. *)
Theorem C9_AgentTools_copy_or_NotFound (m : Machine) (s : State) :
  (docTools (doc m) = None →
     Machine_AgentTools m s
       = Ret (None, Some (notFound ("agent tools for machine "
                                    +:+ Machine_String m))) s)
  ∧
  (∀ (p : ptr) (tv : Tools),
     docTools (doc m) = Some p → mem s !! p = Some tv →
     ∃ (q : ptr) (s' : State),
       Machine_AgentTools m s = Ret (Some q, None) s' ∧
       q ≠ p ∧ mem s !! q = None ∧
       mem s' !! q = Some tv ∧ mem s' !! p = Some tv ∧
       ∀ v : Tools, ∃ s'',
         store q v s' = Ret tt s'' ∧
         mem s'' !! q = Some v ∧ mem s'' !! p = Some tv).
Proof.
  unfold Machine_AgentTools. split.
  - by intros ->.
  - intros p tv -> Hp.
    unfold mbind, M_bind, mret, M_ret. rewrite (load_Some p tv s Hp).
    apply lookup_lt_Some in Hp as Hlt.
    exists (length (mem s)), (set_mem (mem s ++ [tv]) s).
    split; [reflexivity|]. split; [lia|].
    split; [by apply lookup_ge_None_2|]. simpl.
    split; [rewrite lookup_app_r by lia; by rewrite Nat.sub_diag|].
    split; [by rewrite lookup_app_l|].
    intros v. eexists. split; [reflexivity|]. simpl. split.
    + apply list_lookup_insert_eq. rewrite length_app. simpl. lia.
    + rewrite list_lookup_insert_ne by lia. by rewrite lookup_app_l.
Qed.

Lemma C9_AgentTools_copy_or_NotFound_witness :
  docTools (doc (setTools m0 (Some 0))) = Some 0 ∧
  mem st0 !! 0 = Some precise ∧
  ∃ (q : ptr) (s' : State),
    Machine_AgentTools (setTools m0 (Some 0)) st0 = Ret (Some q, None) s' ∧
    q ≠ 0 ∧ mem st0 !! q = None ∧
    mem s' !! q = Some precise ∧ mem s' !! 0 = Some precise ∧
    ∀ v : Tools, ∃ s'',
      store q v s' = Ret tt s'' ∧
      mem s'' !! q = Some v ∧ mem s'' !! 0 = Some precise.
Proof.
  assert (H1 : docTools (doc (setTools m0 (Some 0))) = Some 0) by reflexivity.
  assert (H2 : mem st0 !! 0 = Some precise) by reflexivity.
  exact (conj H1 (conj H2
    (proj2 (C9_AgentTools_copy_or_NotFound (setTools m0 (Some 0)) st0)
           0 precise H1 H2))).
Defined.

(** * Properties of the remote-relations client *)

(** C10.  For a valid name and a facade call that returns no error,
    [WatchRemoteApplication] returns
    - the error "expected 1 result" when the number of results is not one;
    - the error of the result when the one result carries one;
    - a watcher built from the result, and no error, when the one result
      carries none;
    and it returns a watcher in that last case only. *)
Theorem C10_WatchRemoteApplication_results (valid : string → bool)
    (Chg : Type) (st : remoterelations.State Chg) (service : string)
    (results : remoterelations.ApplicationRelationsWatchResults Chg) :
  valid service = true →
  remoterelations.respond (remoterelations.facade st) "WatchRemoteApplication"
    (remoterelations.mkEntities
       [remoterelations.mkEntity
          (remoterelations.NewApplicationTag_String service)])
    = inr results →
  let out := (remoterelations.WatchRemoteApplication valid st service).2 in
  (length (remoterelations.Results results) ≠ 1 →
     out = (None, Some (remoterelations.Errorf
              ("expected 1 result, got "
               +:+ Itoa (Z.of_nat (length (remoterelations.Results results)))))))
  ∧ (∀ r e, remoterelations.Results results = [r] →
       remoterelations.Error r = Some e →
       out = (None, Some (remoterelations.ResultError e)))
  ∧ (∀ r, remoterelations.Results results = [r] →
       remoterelations.Error r = None →
       out = (Some (remoterelations.NewApplicationRelationsWatcher r), None))
  ∧ (∀ w, out.1 = Some w →
       ∃ r, remoterelations.Results results = [r] ∧
         remoterelations.Error r = None ∧
         w = remoterelations.NewApplicationRelationsWatcher r).
Proof.
  intros Hv Hresp out. subst out.
  unfold remoterelations.WatchRemoteApplication, remoterelations.FacadeCall.
  rewrite Hv, Hresp. simpl.
  destruct (remoterelations.Results results) as [|r [|r' rs]] eqn:Hres; simpl.
  - repeat split; try done.
  - repeat split.
    + intros H. by destruct H.
    + intros r0 e [= <-] ->. done.
    + intros r0 [= <-] ->. done.
    + intros w. destruct (remoterelations.Error r) eqn:He; simpl; [done|].
      intros [= <-]. by exists r.
  - repeat split; try done.
Qed.

Lemma C10_WatchRemoteApplication_results_witness :
  IsValidApplication "mysql" = true ∧
  (remoterelations.WatchRemoteApplication IsValidApplication facade0 "mysql").2
    = (Some (remoterelations.NewApplicationRelationsWatcher oneResult), None).
Proof.
  assert (H1 : IsValidApplication "mysql" = true) by reflexivity.
  pose proof (C10_WatchRemoteApplication_results IsValidApplication unit
                facade0 "mysql" _ H1 eq_refl) as (_ & _ & Hw & _).
  exact (conj H1 (Hw oneResult eq_refl eq_refl)).
Defined.

(** * Waiting for the agent *)

(** [WaitAgentAlive] by the outcome of its loop. *)
Lemma WaitAgentAlive_run (m : Machine) (sel : nat → SelectEvent) (s : State) :
  Machine_WaitAgentAlive m sel s =
  match WaitAgentAlive_loop sel 2 0 with
  | Some err =>
      Ret (ErrorContextf ("waiting for agent of machine " +:+ Machine_String m)
                         err) (afterWait m s)
  | None =>
      Panic ("presence reported dead status twice in a row for machine "
             +:+ Machine_String m) (afterWait m s)
  end.
Proof.
  unfold Machine_WaitAgentAlive, defer, mbind, M_bind, makeChan,
    pwatcher_Watch, pwatcher_Unwatch, modify, panic, mret, M_ret, afterWait.
  simpl. by destruct (sel 0) as [[|]| |]; [|destruct (sel 1) as [[|]| |]| |].
Qed.

(** C3.  Two not-alive reports in the two rounds make [WaitAgentAlive]
    panic: it returns nothing, it does not wait again, and the panic, which
    names the machine, goes up to the caller. *)
Theorem C3_double_dead_is_fatal (m : Machine) (sel : nat → SelectEvent)
    (s : State) :
  sel 0 = Change false → sel 1 = Change false →
  Machine_WaitAgentAlive m sel s
    = Panic ("presence reported dead status twice in a row for machine "
             +:+ Machine_String m) (afterWait m s).
Proof.
  intros H0 H1. rewrite WaitAgentAlive_run. simpl. by rewrite H0, H1.
Qed.

Lemma C3_double_dead_is_fatal_witness :
  Machine_WaitAgentAlive m0 (λ _, Change false) st0
    = Panic "presence reported dead status twice in a row for machine 0"
            (afterWait m0 st0).
Proof.
  exact (C3_double_dead_is_fatal m0 (λ _, Change false) st0 eq_refl eq_refl).
Defined.

(** C2 as stated fails.  One alive report, in the first round, with nothing
    but not-alive reports after it: [WaitAgentAlive] returns no error, although at no
    round is an alive report followed by another one. *)
Lemma C2_single_alive_returns_nil :
  Machine_WaitAgentAlive m0 aliveOnce st0 = Ret None (afterWait m0 st0) ∧
  ¬ ∃ i : nat, aliveOnce i = Change true ∧ aliveOnce (S i) = Change true.
Proof.
  split; [reflexivity|]. intros (i & _ & Hi). discriminate.
Qed.

(** C2, amended.  [WaitAgentAlive] returns no error exactly when: the first
    round receives an alive report; or the first round receives a not-alive
    report and the second an alive report; or, in one of these two places,
    the watcher dies instead and its [Err()] is nil.  One alive report is
    enough, and a not-alive report resets nothing: it uses up one of the two
    rounds. *)
Theorem C2_WaitAgentAlive_first_alive (m : Machine) (sel : nat → SelectEvent)
    (s : State) :
  ((∃ s', Machine_WaitAgentAlive m sel s = Ret None s') ↔
     sel 0 = Change true ∨
     (sel 0 = Change false ∧ sel 1 = Change true) ∨
     sel 0 = WatcherDead None ∨
     (sel 0 = Change false ∧ sel 1 = WatcherDead None))
  ∧ (∀ k : nat → SelectEvent,
       Machine_WaitAgentAlive m
         (λ i, match i with 0 => Change true | S j => k j end) s
         = Ret None (afterWait m s))
  ∧ (∀ k : nat → SelectEvent,
       Machine_WaitAgentAlive m
         (λ i, match i with
               | 0 => Change false | 1 => Change true | S (S j) => k j
               end) s
         = Ret None (afterWait m s)).
Proof.
  split; [|split; intros k; by rewrite WaitAgentAlive_run].
  rewrite WaitAgentAlive_run. simpl.
  destruct (sel 0) as [[|]| |[e|]]; [| destruct (sel 1) as [[|]| |[e|]] | | |];
    simpl; split;
    try (intros (s' & Heq); discriminate Heq);
    try (intros _; by eexists);
    try (intros [H|[[H H']|[H|[H H']]]]; discriminate);
    intros _; auto.
Qed.

Lemma C2_WaitAgentAlive_first_alive_witness :
  ∃ s', Machine_WaitAgentAlive m0 (λ _, Change true) st0 = Ret None s'.
Proof.
  exact (proj2 (proj1 (C2_WaitAgentAlive_first_alive m0 (λ _, Change true) st0))
               (or_introl eq_refl)).
Defined.

(** * Lifecycle *)

(** The lifecycle helpers always return, and a helper that returns no error
    leaves every stored document at or past its former [Life]. *)
Lemma ensureLife_store_monotone (target : Life) (below : Assertion)
    (desc : string) (id : Z) (s : State) :
  (target = Dying ∧ below = isAlive) ∨ (target = Dead ∧ below = notDead) →
  ∃ err s', ensureLife target below id desc s = Ret err s' ∧
    mem s' = mem s ∧
    ∀ (k : Z) (d : storedDoc), machines s !! k = Some d →
      ∃ d', machines s' !! k = Some d' ∧
        Life_rank (docLife d) ≤ Life_rank (docLife d').
Proof.
  intros Hcase. unfold ensureLife, mbind, M_bind, gets, mret, M_ret.
  set (op := mkOp _ _ _ _).
  destruct (runner_Run_ret [op] s) as (err & s' & -> & _ & Hmem & _ & _ & Hms).
  destruct err as [e|].
  - assert (Hsame : ∀ k d, machines s !! k = Some d →
              ∃ d', machines s' !! k = Some d' ∧
                Life_rank (docLife d) ≤ Life_rank (docLife d')).
    { intros k d Hk. exists d. by rewrite Hms. }
    destruct e; try (eexists _, _; split; [reflexivity|]; by split).
    destruct (machines s' !! id); eexists _, _; (split; [reflexivity|]);
      by split.
  - eexists _, _. split; [reflexivity|]. split; [done|].
    destruct Hms as [Hall ->]. intros k d Hk. simpl. unfold applyOp. simpl.
    destruct (decide (k = id)) as [->|Hne].
    + rewrite lookup_alter_eq, Hk. simpl. eexists. split; [done|]. simpl.
      simpl in Hall. unfold opHolds in Hall. simpl in Hall.
      rewrite Hk, andb_true_r in Hall.
      destruct Hcase as [[-> ->]|[-> ->]]; simpl in Hall;
        apply bool_decide_eq_true_1 in Hall;
        destruct (docLife d); simpl; try lia; congruence.
    + rewrite lookup_alter_ne by done. exists d. by split.
Qed.

(** Whenever [EnsureDying] returns no error the cached [Life] is Dying, and
    whenever [EnsureDead] returns no error it is Dead, whatever it was. *)
Lemma Ensure_sets_cached_Life (m m' : Machine) (s s' : State) :
  (Machine_EnsureDying m s = Ret (m', None) s' → Machine_Life m' = Dying) ∧
  (Machine_EnsureDead m s = Ret (m', None) s' → Machine_Life m' = Dead).
Proof.
  unfold Machine_EnsureDying, Machine_EnsureDead, mbind, M_bind, mret, M_ret.
  split.
  - destruct (ensureDying (Id (doc m)) "machine" s) as [[e|] s1|msg s1];
      [discriminate| |discriminate].
    by intros [= <- <-].
  - destruct (ensureDead (Id (doc m)) "machine" s) as [[e|] s1|msg s1];
      [discriminate| |discriminate].
    by intros [= <- <-].
Qed.

(** On a document that is in the collection and no longer Alive,
    [ensureDying] does nothing and returns no error. *)
Lemma ensureDying_past_target (id : Z) (desc : string) (d : storedDoc)
    (s : State) :
  nextFault s = None → machines s !! id = Some d → docLife d ≠ Alive →
  ∃ s', ensureDying id desc s = Ret None s' ∧ machines s' = machines s.
Proof.
  intros Hio Hd Hlife.
  unfold ensureDying, ensureLife, runner_Run, mbind, M_bind, modify, gets,
    mret, M_ret.
  set (s0 := set_runner _ s).
  destruct (roundTrip_ok s0 Hio) as (s1 & -> & _ & Hms & _).
  rewrite Hms. simpl. unfold opHolds. simpl. rewrite Hd. simpl.
  rewrite bool_decide_eq_false_2 by done. simpl.
  rewrite Hms. simpl. rewrite Hd. eauto.
Qed.

(** On a handle that caches Dead, for a machine whose document is Dead,
    [EnsureDying] returns no error, leaves the collection as it is, and
    moves the cached [Life] back to Dying. *)
Lemma EnsureDying_moves_cache_back (m : Machine) (d : storedDoc) (s : State) :
  nextFault s = None → machines s !! Id (doc m) = Some d →
  docLife d = Dead → Machine_Life m = Dead →
  ∃ (m' : Machine) (s' : State),
    Machine_EnsureDying m s = Ret (m', None) s' ∧
    Machine_Life m' = Dying ∧ machines s' = machines s.
Proof.
  intros Hio Hd Hdead _.
  destruct (ensureDying_past_target (Id (doc m)) "machine" d s Hio Hd)
    as (s' & Hrun & Hms); [congruence|].
  exists (setLife m Dying), s'.
  unfold Machine_EnsureDying, mbind, M_bind, mret, M_ret. by rewrite Hrun.
Qed.

(** C1, on the code.  Machine 0 is Alive.  [EnsureDead] returns no error and
    the handle and the stored document are Dead.  [EnsureDying], called next
    on the same handle, returns no error too: the stored document stays Dead,
    but the handle now reports Dying. *)
Theorem C1_EnsureDying_after_Dead_reports_Dying :
  ∃ (m1 m2 : Machine) (s1 s2 : State),
    Machine_EnsureDead m0 st0 = Ret (m1, None) s1 ∧
    Machine_Life m1 = Dead ∧
    docLife <$> machines s1 !! 0%Z = Some Dead ∧
    Machine_EnsureDying m1 s1 = Ret (m2, None) s2 ∧
    Machine_Life m2 = Dying ∧
    docLife <$> machines s2 !! 0%Z = Some Dead.
Proof.
  eexists _, _, _, _.
  split; [vm_compute; reflexivity|].
  split; [reflexivity|].
  split; [reflexivity|].
  split; [vm_compute; reflexivity|].
  split; reflexivity.
Qed.

(** * Further properties of the machine handle *)

Import state_more.

(** ** Keys *)

(** [Itoa] can be read back. *)
Lemma parseDecimal_Itoa (z : Z) : parseDecimal (Itoa z) = Some z.
Proof.
  unfold parseDecimal, Itoa. rewrite NilZero.isi.
  - simpl. f_equal. apply DecimalZ.of_to.
  - destruct z; simpl; try discriminate.
    intros [= H]. by apply DecimalPos.Unsigned.to_uint_nonnil in H.
  - destruct z; simpl; try discriminate.
    intros [= H]. by apply DecimalPos.Unsigned.to_uint_nonnil in H.
Qed.

Lemma Itoa_inj (a b : Z) : Itoa a = Itoa b → a = b.
Proof.
  intros H. apply (f_equal parseDecimal) in H.
  rewrite !parseDecimal_Itoa in H. by injection H.
Qed.

Lemma string_app_inv_head (p a b : string) : p +:+ a = p +:+ b → a = b.
Proof. induction p as [|c p IH]; simpl; [done|]. intros [= H]. auto. Qed.

(** X1.  The keys of a machine identify it: two handles have the same
    [globalKey], the same [PathKey] or the same [String] exactly when they
    have the same id. *)
Theorem X1_machine_keys_identify (m1 m2 : Machine) :
  (Machine_globalKey m1 = Machine_globalKey m2 ↔ Machine_Id m1 = Machine_Id m2)
  ∧ (Machine_PathKey m1 = Machine_PathKey m2 ↔ Machine_Id m1 = Machine_Id m2)
  ∧ (Machine_String m1 = Machine_String m2 ↔ Machine_Id m1 = Machine_Id m2).
Proof.
  unfold Machine_globalKey, Machine_PathKey, Machine_String, Machine_Id.
  repeat split; try (by intros ->).
  - intros H. by apply string_app_inv_head, Itoa_inj in H.
  - intros H. by apply string_app_inv_head, Itoa_inj in H.
  - apply Itoa_inj.
Qed.

(** ** Waiting for the agent, continued *)

Lemma filter_other_channel (key : string) (n : nat) (l : list (string * nat)) :
  (∀ k ch, (k, ch) ∈ l → ch < n) →
  filter (λ w, w ≠ (key, n)) (l ++ [(key, n)]) = l.
Proof.
  intros Hl. rewrite filter_app.
  assert (Hlast : filter (λ w, w ≠ (key, n)) [(key, n)] = []).
  { rewrite filter_cons. by case_decide. }
  rewrite Hlast, app_nil_r. clear Hlast.
  induction l as [|[k ch] l IH]; [done|].
  rewrite filter_cons. case_decide as Hne.
  - f_equal. apply IH. intros k' ch' Hin. apply (Hl k' ch'). by right.
  - exfalso. injection Hne as -> ->.
    assert (n < n) by (apply (Hl key n); by left). lia.
Qed.

(** X2.  However [WaitAgentAlive] ends, by a return or by its panic, the
    subscription it made is gone: the subscriptions of the presence watcher
    are the ones from before the call.  The call reads and writes nothing in
    the collection of machines, the log of transactions or the memory. *)
Theorem X2_WaitAgentAlive_always_unwatches (m : Machine)
    (sel : nat → SelectEvent) (s : State) :
  channelsMade s →
  let s' := finalState (Machine_WaitAgentAlive m sel s) in
  pwatcher s' = pwatcher s ∧ chans s' = S (chans s) ∧
  machines s' = machines s ∧ runner s' = runner s ∧
  mem s' = mem s ∧ faults s' = faults s.
Proof.
  intros Hch. rewrite WaitAgentAlive_run.
  assert (Hs : ∀ r : Res (option error),
            finalState r = afterWait m s →
            pwatcher (finalState r) = pwatcher s ∧
            chans (finalState r) = S (chans s) ∧
            machines (finalState r) = machines s ∧
            runner (finalState r) = runner s ∧
            mem (finalState r) = mem s ∧ faults (finalState r) = faults s).
  { intros r ->. unfold afterWait. simpl.
    split; [by apply filter_other_channel|done]. }
  apply Hs. by destruct (WaitAgentAlive_loop sel 2 0).
Qed.

Lemma X2_WaitAgentAlive_always_unwatches_witness :
  channelsMade (set_chans 1 (set_pwatcher [("m#7", 0)] st0)) ∧
  pwatcher (finalState (Machine_WaitAgentAlive m0 (λ _, Change false)
                          (set_chans 1 (set_pwatcher [("m#7", 0)] st0))))
    = [("m#7", 0)].
Proof.
  assert (H : channelsMade (set_chans 1 (set_pwatcher [("m#7", 0)] st0))).
  { intros key ch Hin. simpl in *. apply list_elem_of_singleton in Hin.
    injection Hin as _ ->. lia. }
  exact (conj H (proj1 (X2_WaitAgentAlive_always_unwatches m0
                          (λ _, Change false) _ H))).
Defined.

(** X3.  [WaitAgentAlive] makes at most two selects: what it does is fixed
    by what the first two resolve to. *)
Theorem X3_WaitAgentAlive_two_rounds (m : Machine)
    (sel sel' : nat → SelectEvent) (s : State) :
  sel 0 = sel' 0 → sel 1 = sel' 1 →
  Machine_WaitAgentAlive m sel s = Machine_WaitAgentAlive m sel' s.
Proof.
  intros H0 H1. rewrite !WaitAgentAlive_run. simpl. by rewrite H0, H1.
Qed.

Lemma X3_WaitAgentAlive_two_rounds_witness :
  Machine_WaitAgentAlive m0 (λ _, Change false) st0
  = Machine_WaitAgentAlive m0
      (λ i, match i with 0 | 1 => Change false | _ => Change true end) st0.
Proof.
  exact (X3_WaitAgentAlive_two_rounds m0 (λ _, Change false)
           (λ i, match i with 0 | 1 => Change false | _ => Change true end)
           st0 eq_refl eq_refl).
Defined.

(** X4.  The errors of [WaitAgentAlive].  The timer firing in the first
    round, or in the second after a not-alive report, gives "still not alive
    after timeout"; the watcher dying in one of these places gives the
    watcher's error; and every error the method returns carries the context
    "waiting for agent of machine" with the machine's id. *)
Theorem X4_WaitAgentAlive_errors (m : Machine) (sel : nat → SelectEvent)
    (s : State) :
  let context := "waiting for agent of machine " +:+ Machine_String m in
  (sel 0 = TimedOut ∨ (sel 0 = Change false ∧ sel 1 = TimedOut) →
     Machine_WaitAgentAlive m sel s
       = Ret (Some (ErrContext context (Errorf "still not alive after timeout")))
             (afterWait m s))
  ∧ (∀ e, sel 0 = WatcherDead (Some e) ∨
          (sel 0 = Change false ∧ sel 1 = WatcherDead (Some e)) →
       Machine_WaitAgentAlive m sel s
         = Ret (Some (ErrContext context e)) (afterWait m s))
  ∧ (∀ e s', Machine_WaitAgentAlive m sel s = Ret (Some e) s' →
       ∃ cause, e = ErrContext context cause).
Proof.
  intros context. rewrite WaitAgentAlive_run. simpl. repeat split.
  - intros [->|[-> ->]]; done.
  - intros e [->|[-> ->]]; done.
  - intros e s'.
    destruct (sel 0) as [[|]| |[e0|]];
      [| destruct (sel 1) as [[|]| |[e1|]] | | |]; simpl;
      intros [= <- _] || intros [=]; eauto.
Qed.

Lemma X4_WaitAgentAlive_errors_witness :
  Machine_WaitAgentAlive m0
    (λ i, match i with 0 => Change false | _ => TimedOut end) st0
  = Ret (Some (ErrContext "waiting for agent of machine 0"
                          (Errorf "still not alive after timeout")))
        (afterWait m0 st0).
Proof.
  exact (proj1 (X4_WaitAgentAlive_errors m0
                  (λ i, match i with 0 => Change false | _ => TimedOut end) st0)
               (or_intror (conj eq_refl eq_refl))).
Defined.

(** ** Agent tools, continued *)

(** A successful [SetAgentTools]: the tools passed the check, they were
    written in the stored document, which was there and not Dead, and the
    handle points to a new object that holds them. *)
Lemma SetAgentTools_commits (m m' : Machine) (t : ptr) (tv : Tools)
    (s s' : State) :
  mem s !! t = Some tv →
  Machine_SetAgentTools m (Some t) s = Ret (m', None) s' →
  Series tv ≠ "" ∧ Arch tv ≠ "" ∧
  m' = setTools m (Some (length (mem s))) ∧ mem s' = mem s ++ [tv] ∧
  ∃ d, machines s !! Id (doc m) = Some d ∧ docLife d ≠ Dead ∧
    machines s' !! Id (doc m)
      = Some (withTxnRevno (withTools d (Some tv)) (TxnRevno d + 1)%Z).
Proof.
  intros Ht. unfold Machine_SetAgentTools, mbind, M_bind, mret, M_ret.
  rewrite (load_Some t tv s Ht).
  destruct (bool_decide (Series tv = "")) eqn:HS; [discriminate|].
  destruct (bool_decide (Arch tv = "")) eqn:HA; [discriminate|]. simpl.
  apply bool_decide_eq_false_1 in HS, HA.
  set (op := mkOp _ _ _ _).
  destruct (runner_Run_ret [op] s) as (err & s1 & -> & _ & Hmem & _ & _ & Hms).
  destruct err as [e|]; [discriminate|].
  assert (Ht1 : mem s1 !! t = Some tv) by (by rewrite Hmem).
  rewrite (load_Some t tv s1 Ht1). simpl. intros [= <- <-].
  rewrite Hmem. do 4 (split; [done|]).
  destruct Hms as [Hall Hms]. simpl in Hall, Hms.
  rewrite andb_true_r in Hall. unfold opHolds in Hall. simpl in Hall.
  destruct (machines s !! Id (doc m)) as [d|] eqn:Hd; [|discriminate].
  exists d. split; [done|]. split.
  - by apply bool_decide_eq_true_1 in Hall.
  - simpl. rewrite Hms. unfold applyOp. simpl. by rewrite lookup_alter_eq, Hd.
Qed.

(** X5.  [SetAgentTools] keeps a copy of its argument.  After a call that
    returns no error the handle points to an object of its own, equal to the
    tools passed; a later write through the caller's pointer does not reach
    it, and [AgentTools] then returns, with no error, a pointer to yet another
    object equal to the tools passed. *)
Theorem X5_SetAgentTools_copies_argument (m m' : Machine) (t : ptr)
    (tv : Tools) (s s' : State) :
  mem s !! t = Some tv →
  Machine_SetAgentTools m (Some t) s = Ret (m', None) s' →
  ∃ p : ptr,
    docTools (doc m') = Some p ∧ p ≠ t ∧ mem s !! p = None ∧
    mem s' !! p = Some tv ∧ mem s' !! t = Some tv ∧
    (∀ v : Tools, ∃ s'',
       store t v s' = Ret tt s'' ∧ mem s'' !! t = Some v ∧
       mem s'' !! p = Some tv) ∧
    (∃ (q : ptr) (s'' : State),
       Machine_AgentTools m' s' = Ret (Some q, None) s'' ∧
       q ≠ p ∧ q ≠ t ∧ mem s'' !! q = Some tv).
Proof.
  intros Ht Hset.
  destruct (SetAgentTools_commits m m' t tv s s' Ht Hset)
    as (_ & _ & -> & Hmem & _).
  apply lookup_lt_Some in Ht as Hlt.
  assert (Hp : mem s' !! length (mem s) = Some tv).
  { rewrite Hmem, lookup_app_r by lia. by rewrite Nat.sub_diag. }
  assert (Hlen : length (mem s') = S (length (mem s))).
  { rewrite Hmem, length_app. simpl. lia. }
  exists (length (mem s)). split; [done|]. split; [lia|].
  split; [by apply lookup_ge_None_2|]. split; [done|].
  split; [by rewrite Hmem, lookup_app_l|]. split.
  - intros v. eexists. split; [reflexivity|]. simpl. split.
    + apply list_lookup_insert_eq. lia.
    + by rewrite list_lookup_insert_ne by lia.
  - exists (length (mem s')), (set_mem (mem s' ++ [tv]) s').
    unfold Machine_AgentTools, mbind, M_bind, mret, M_ret. simpl.
    rewrite (load_Some _ tv s' Hp). simpl.
    split; [done|]. split; [lia|]. split; [lia|].
    rewrite lookup_app_r by lia. by rewrite Nat.sub_diag.
Qed.

Lemma X5_SetAgentTools_copies_argument_witness :
  ∃ (m' : Machine) (s' : State) (p : ptr),
    mem st0 !! 0 = Some precise ∧
    Machine_SetAgentTools m0 (Some 0) st0 = Ret (m', None) s' ∧
    docTools (doc m') = Some p ∧ p ≠ 0 ∧ mem s' !! p = Some precise.
Proof.
  assert (H1 : mem st0 !! 0 = Some precise) by reflexivity.
  pose proof (eq_refl : Machine_SetAgentTools m0 (Some 0) st0
                        = Ret (setTools m0 (Some 2), None) _) as H2.
  destruct (X5_SetAgentTools_copies_argument _ _ _ _ _ _ H1 H2)
    as (p & Hp & Hne & _ & Hmp & _).
  eexists _, _, p. exact (conj H1 (conj H2 (conj Hp (conj Hne Hmp)))).
Defined.

(** X6.  The tools survive the round trip through the database: after a
    [SetAgentTools] and a [Refresh] that return no error, [AgentTools]
    returns, with no error, a pointer to tools equal to the ones set. *)
Theorem X6_SetAgentTools_Refresh_AgentTools (m m1 m2 : Machine) (t : ptr)
    (tv : Tools) (s s1 s2 : State) :
  mem s !! t = Some tv →
  Machine_SetAgentTools m (Some t) s = Ret (m1, None) s1 →
  Machine_Refresh m1 s1 = Ret (m2, None) s2 →
  ∃ (q : ptr) (s3 : State),
    Machine_AgentTools m2 s2 = Ret (Some q, None) s3 ∧
    mem s3 !! q = Some tv.
Proof.
  intros Ht Hset Href.
  destruct (SetAgentTools_commits m m1 t tv s s1 Ht Hset)
    as (_ & _ & -> & _ & d & _ & _ & Hd1).
  unfold Machine_Refresh, mbind, M_bind, mret, M_ret in Href.
  destruct (machines_FindId_One_ret (Id (doc (setTools m (Some (length (mem s))))))
              s1) as (r & s' & Hfind & _ & _ & Hr).
  rewrite Hfind in Href. destruct r as [d2|e]; [|destruct e; discriminate].
  injection Href as <- <-. destruct Hr as (d0 & Hd0 & Hst).
  simpl in Hd0. rewrite Hd1 in Hd0. injection Hd0 as <-.
  apply (f_equal docTools) in Hst. simpl in Hst.
  destruct (docTools d2) as [p2|] eqn:Hp2; [|discriminate]. simpl in Hst.
  exists (length (mem s')), (set_mem (mem s' ++ [tv]) s').
  unfold Machine_AgentTools, mbind, M_bind, mret, M_ret. simpl.
  rewrite Hp2, (load_Some _ tv s' Hst). simpl. split; [done|].
  rewrite lookup_app_r by lia. by rewrite Nat.sub_diag.
Qed.

Lemma X6_SetAgentTools_Refresh_AgentTools_witness :
  ∃ (m1 m2 : Machine) (s1 s2 s3 : State) (q : ptr),
    mem st0 !! 0 = Some precise ∧
    Machine_SetAgentTools m0 (Some 0) st0 = Ret (m1, None) s1 ∧
    Machine_Refresh m1 s1 = Ret (m2, None) s2 ∧
    Machine_AgentTools m2 s2 = Ret (Some q, None) s3 ∧
    mem s3 !! q = Some precise.
Proof.
  assert (H1 : mem st0 !! 0 = Some precise) by reflexivity.
  pose proof (eq_refl : Machine_SetAgentTools m0 (Some 0) st0
                        = Ret (setTools m0 (Some 2), None) _) as H2.
  lazymatch type of H2 with
  | _ = Ret _ ?s1 =>
      pose proof (eq_refl : Machine_Refresh (setTools m0 (Some 2)) s1
                            = Ret (_, None) _) as H3
  end.
  destruct (X6_SetAgentTools_Refresh_AgentTools _ _ _ _ _ _ _ _ H1 H2 H3)
    as (q & s3 & H4 & H5).
  eexists _, _, _, _, s3, q.
  exact (conj H1 (conj H2 (conj H3 (conj H4 H5)))).
Defined.

(** ** What the methods leave alone *)

(** A run, case by case: an I/O error, a commit, or an abort. *)
Lemma runner_Run_cases (ops : list Op) (s : State) :
  ∃ err s', runner_Run ops s = Ret err s' ∧ mem s' = mem s ∧
    faults s' = tail (faults s) ∧
    match nextFault s with
    | Some msg => err = Some (Errorf msg) ∧ machines s' = machines s
    | None =>
        if forallb (opHolds (machines s)) ops
        then err = None ∧ machines s' = foldl applyOp (machines s) ops
        else err = Some ErrAborted ∧ machines s' = machines s
    end.
Proof.
  unfold runner_Run, roundTrip, nextFault, mbind, M_bind, modify, gets,
    mret, M_ret. simpl.
  destruct (faults s) as [|[msg|] fs] eqn:Hf; simpl;
    try destruct (forallb (opHolds (machines s)) ops);
    eexists _, _; (split; [reflexivity|]); simpl; rewrite ?Hf; done.
Qed.

Ltac inv_Ret H := injection H as <- <- <-.

(** X7.  A mutator or a lifecycle method changes at most the one cached
    field it is about, and nothing when it returns an error: the id, the
    principals, the revision and the workers of the handle are never
    touched. *)
Theorem X7_methods_change_one_field (m m' : Machine) (err : option error)
    (s s' : State) :
  (∀ id, Machine_SetInstanceId m id s = Ret (m', err) s' →
     sameFixedFields m m' ∧ (err ≠ None → m' = m) ∧
     (err = None → m' = setInstanceId m id))
  ∧ (∀ t, Machine_SetAgentTools m t s = Ret (m', err) s' →
       sameFixedFields m m' ∧ (err ≠ None → m' = m) ∧
       (err = None → ∃ p, m' = setTools m (Some p)))
  ∧ (Machine_EnsureDying m s = Ret (m', err) s' →
       sameFixedFields m m' ∧ (err ≠ None → m' = m) ∧
       (err = None → m' = setLife m Dying))
  ∧ (Machine_EnsureDead m s = Ret (m', err) s' →
       sameFixedFields m m' ∧ (err ≠ None → m' = m) ∧
       (err = None → m' = setLife m Dead)).
Proof.
  unfold sameFixedFields. split; [|split; [|split]].
  - intros id. unfold Machine_SetInstanceId, mbind, M_bind, mret, M_ret.
    set (op := mkOp _ _ _ _).
    destruct (runner_Run_ret [op] s) as ([e|] & s1 & -> & _);
      intros H; inv_Ret H; done.
  - intros t. unfold Machine_SetAgentTools, mbind, M_bind, mret, M_ret.
    destruct (load t s) as [tv s0|msg s0] eqn:Hload; [|discriminate].
    assert (s0 = s) as ->.
    { unfold load in Hload. destruct (t ≫= (mem s !!.)); by inversion Hload. }
    destruct (bool_decide (Series tv = "") || bool_decide (Arch tv = ""));
      simpl.
    { intros H; inv_Ret H; done. }
    set (op := mkOp _ _ _ _).
    destruct (runner_Run_ret [op] s) as ([e|] & s1 & -> & _).
    { intros H; inv_Ret H; done. }
    destruct (load t s1) as [tv1 s2|msg s2]; [|discriminate]. simpl.
    intros H; inv_Ret H. repeat split; try done. eauto.
  - unfold Machine_EnsureDying, mbind, M_bind, mret, M_ret.
    destruct (ensureDying (Id (doc m)) "machine" s) as [[e|] s1|msg s1];
      [| |discriminate]; intros H; inv_Ret H; done.
  - unfold Machine_EnsureDead, mbind, M_bind, mret, M_ret.
    destruct (ensureDead (Id (doc m)) "machine" s) as [[e|] s1|msg s1];
      [| |discriminate]; intros H; inv_Ret H; done.
Qed.

Lemma X7_methods_change_one_field_witness :
  sameFixedFields m0 (setInstanceId m0 "i-123").
Proof.
  pose proof (eq_refl : Machine_SetInstanceId m0 "i-123" st0
                        = Ret (setInstanceId m0 "i-123", None) _) as H.
  exact (proj1 (proj1 (X7_methods_change_one_field _ _ _ _ _) _ H)).
Defined.

(** ** Refresh, continued *)

(** X8.  [Refresh] always returns, it only reads (the collection and the log
    of transactions are as before), and a [Refresh] that returns an error
    leaves the handle as it was.  The error is the not-found error exactly
    when the lookup went through and found no document; a lookup that meets
    an I/O error gives "cannot refresh machine" with that error, which is
    not a not-found error. *)
Theorem X8_Refresh_reads_only (m : Machine) (s : State) :
  ∃ (m' : Machine) (err : option error) (s' : State),
    Machine_Refresh m s = Ret (m', err) s' ∧
    machines s' = machines s ∧ runner s' = runner s ∧
    (err ≠ None → m' = m ∧ mem s' = mem s) ∧
    (isNotFound err = true ↔
       nextFault s = None ∧ machines s !! Id (doc m) = None) ∧
    (∀ msg, nextFault s = Some msg →
       err = Some (ErrContext ("cannot refresh machine " +:+ Machine_String m)
                              (Errorf msg))).
Proof.
  unfold Machine_Refresh, machines_FindId_One, mbind, M_bind, gets, mret, M_ret.
  destruct (roundTrip_ret s) as (s1 & -> & Hmem & Hms & Hrun & _).
  destruct (nextFault s) as [msg|]; simpl.
  - eexists _, _, _. split; [reflexivity|]. repeat split; try done.
    + by intros [? _].
    + by intros ? [= ->].
  - rewrite Hms. destruct (machines s !! Id (doc m)) as [d|] eqn:Hd.
    + unfold unmarshal, mbind, M_bind, mret, M_ret, new.
      destruct (docTools d); simpl;
        (eexists _, _, _; split; [reflexivity|]; repeat split; try done;
         by intros [_ ?]).
    + eexists _, _, _. split; [reflexivity|]. repeat split; done.
Qed.

(** X9.  In a collection that stores every document under its own id, a
    [Refresh] that returns no error leaves the id of the handle, and so its
    keys, as they were. *)
Theorem X9_Refresh_keeps_Id (m m' : Machine) (s s' : State) :
  wellKeyed s →
  Machine_Refresh m s = Ret (m', None) s' →
  Machine_Id m' = Machine_Id m ∧
  Machine_globalKey m' = Machine_globalKey m ∧
  Machine_PathKey m' = Machine_PathKey m.
Proof.
  intros Hwk Href.
  assert (Hid : Id (doc m') = Id (doc m)).
  { unfold Machine_Refresh, mbind, M_bind, mret, M_ret in Href.
    destruct (machines_FindId_One_ret (Id (doc m)) s)
      as (r & s1 & Hfind & _ & _ & Hr).
    rewrite Hfind in Href. destruct r as [d|e]; [|destruct e; discriminate].
    injection Href as <- <-. destruct Hr as (d0 & Hd0 & Hst).
    apply Hwk in Hd0. rewrite <- Hst in Hd0. exact Hd0. }
  unfold Machine_Id, Machine_globalKey, Machine_PathKey, Machine_String.
  by rewrite Hid.
Qed.

Lemma X9_Refresh_keeps_Id_witness :
  ∃ (m' : Machine) (s' : State),
    wellKeyed st0 ∧ Machine_Refresh m0 st0 = Ret (m', None) s' ∧
    Machine_Id m' = Machine_Id m0.
Proof.
  assert (H1 : wellKeyed st0).
  { intros k d Hk. unfold st0 in Hk. simpl in Hk.
    apply lookup_singleton_Some in Hk as [<- <-]. reflexivity. }
  pose proof (eq_refl : Machine_Refresh m0 st0 = Ret (m0, None) _) as H2.
  eexists _, _.
  exact (conj H1 (conj H2 (proj1 (X9_Refresh_keeps_Id _ _ _ _ H1 H2)))).
Defined.

(** ** Writes on a machine that is gone or Dead *)

(** X10.  On a machine whose document is missing or Dead, with the database
    reachable, [SetInstanceId] and [SetAgentTools] (on tools that pass the
    check) write nothing and return the error [errNotAlive], under their
    context; the handle is the one it was. *)
Theorem X10_mutators_refuse_dead (m : Machine) (s : State) :
  nextFault s = None →
  (machines s !! Id (doc m) = None ∨
   ∃ d, machines s !! Id (doc m) = Some d ∧ docLife d = Dead) →
  (∀ id, ∃ s',
     Machine_SetInstanceId m id s
       = Ret (m, Some (ErrContext ("cannot set instance id of machine "
                                   +:+ Machine_String m) errNotAlive)) s' ∧
     machines s' = machines s)
  ∧ (∀ (t : ptr) (tv : Tools),
       mem s !! t = Some tv → Series tv ≠ "" → Arch tv ≠ "" →
       ∃ s',
         Machine_SetAgentTools m (Some t) s
           = Ret (m, Some (ErrContext ("cannot set agent tools for machine "
                                       +:+ Machine_String m) errNotAlive)) s' ∧
         machines s' = machines s ∧ mem s' = mem s).
Proof.
  intros Hio Hgone.
  assert (Habort : ∀ u, ∃ s',
            runner_Run [mkOp machines_Name (Id (doc m)) notDead u] s
              = Ret (Some ErrAborted) s' ∧
            machines s' = machines s ∧ mem s' = mem s).
  { intros u.
    destruct (runner_Run_cases [mkOp machines_Name (Id (doc m)) notDead u] s)
      as (err & s' & Hrun & Hmem & _ & Hcase).
    assert (Hno : forallb (opHolds (machines s))
                    [mkOp machines_Name (Id (doc m)) notDead u] = false).
    { simpl. unfold opHolds. simpl.
      destruct Hgone as [->|(d & -> & Hd)]; [done|]. simpl.
      rewrite bool_decide_eq_false_2; [done|]. by intros []. }
    rewrite Hio, Hno in Hcase. destruct Hcase as [-> Hms]. eauto. }
  split.
  - intros id. destruct (Habort (Set_instanceid id)) as (s' & Hrun & Hms & _).
    exists s'. unfold Machine_SetInstanceId, mbind, M_bind, mret, M_ret.
    by rewrite Hrun.
  - intros t tv Ht HS HA.
    destruct (Habort (Set_tools tv)) as (s' & Hrun & Hms & Hmem).
    exists s'. unfold Machine_SetAgentTools, mbind, M_bind, mret, M_ret.
    rewrite (load_Some t tv s Ht).
    rewrite !bool_decide_eq_false_2 by done. simpl. by rewrite Hrun.
Qed.

Lemma X10_mutators_refuse_dead_witness :
  nextFault st0 = None ∧ machines st0 !! Id (doc (mkMachine (mkDoc 5%Z "" [] Alive None 0%Z []))) = None ∧
  ∃ s', Machine_SetInstanceId (mkMachine (mkDoc 5%Z "" [] Alive None 0%Z []))
          "i-9" st0
        = Ret (mkMachine (mkDoc 5%Z "" [] Alive None 0%Z []),
               Some (ErrContext "cannot set instance id of machine 5"
                                errNotAlive)) s' ∧
        machines s' = machines st0.
Proof.
  assert (H1 : nextFault st0 = None) by reflexivity.
  assert (H2 : machines st0
                 !! Id (doc (mkMachine (mkDoc 5%Z "" [] Alive None 0%Z [])))
               = None) by reflexivity.
  exact (conj H1 (conj H2
    (proj1 (X10_mutators_refuse_dead _ st0 H1 (or_introl H2)) "i-9"))).
Defined.

(** A transaction that asserts [notDead] on a document that is Dead, with
    the database reachable, aborts and writes nothing. *)
Lemma notDead_run_aborts (id : Z) (u : UpdateDoc) (d : storedDoc) (s : State) :
  nextFault s = None → machines s !! id = Some d → docLife d = Dead →
  ∃ s', runner_Run [mkOp machines_Name id notDead u] s
          = Ret (Some ErrAborted) s' ∧
        machines s' = machines s ∧ mem s' = mem s.
Proof.
  intros Hio Hd Hdead.
  destruct (runner_Run_cases [mkOp machines_Name id notDead u] s)
    as (err & s' & Hrun & Hmem & _ & Hcase).
  assert (Hno : forallb (opHolds (machines s))
                  [mkOp machines_Name id notDead u] = false).
  { simpl. unfold opHolds. simpl. rewrite Hd. simpl.
    rewrite bool_decide_eq_false_2; [done|]. by intros []. }
  rewrite Hio, Hno in Hcase. destruct Hcase as [-> Hms]. eauto.
Qed.

(** When [ensureDead] returns no error the document is in the collection
    and Dead. *)
Lemma ensureDead_makes_Dead (id : Z) (desc : string) (s s1 : State) :
  ensureDead id desc s = Ret None s1 →
  ∃ d, machines s1 !! id = Some d ∧ docLife d = Dead.
Proof.
  unfold ensureDead, ensureLife, mbind, M_bind, gets, mret, M_ret.
  set (op := mkOp _ _ _ _).
  destruct (runner_Run_cases [op] s) as (err & s' & -> & _ & _ & Hcase).
  destruct (nextFault s) as [msg|].
  { destruct Hcase as [-> _]. discriminate. }
  assert (Hall : forallb (opHolds (machines s)) [op]
                 = match machines s !! id with
                   | Some d => holds notDead d
                   | None => false
                   end).
  { simpl. rewrite andb_true_r. reflexivity. }
  rewrite Hall in Hcase. clear Hall.
  destruct (machines s !! id) as [d|] eqn:Hd.
  - destruct (holds notDead d) eqn:Hh.
    + destruct Hcase as [-> Hms]. intros [= <-]. rewrite Hms. simpl.
      unfold applyOp. simpl. rewrite lookup_alter_eq, Hd. simpl. eauto.
    + destruct Hcase as [-> Hms]. rewrite Hms, Hd. intros [= <-].
      exists d. rewrite Hms. split; [done|].
      simpl in Hh. apply bool_decide_eq_false_1 in Hh.
      destruct (docLife d); try done; exfalso; by apply Hh.
  - destruct Hcase as [-> Hms]. rewrite Hms, Hd. discriminate.
Qed.

(** X11.  Dead is final.  After an [EnsureDead] that returns no error the
    handle and the stored document are Dead; from there, with the database
    reachable, [SetInstanceId] returns [errNotAlive] and writes nothing, and
    a second [EnsureDead] returns no error and changes neither the handle nor
    the collection. *)
Theorem X11_EnsureDead_is_final (m m1 : Machine) (s s1 : State) :
  Machine_EnsureDead m s = Ret (m1, None) s1 →
  nextFault s1 = None →
  Machine_Life m1 = Dead
  ∧ (∃ d, machines s1 !! Id (doc m1) = Some d ∧ docLife d = Dead)
  ∧ (∀ id, ∃ s2,
       Machine_SetInstanceId m1 id s1
         = Ret (m1, Some (ErrContext ("cannot set instance id of machine "
                                      +:+ Machine_String m1) errNotAlive)) s2 ∧
       machines s2 = machines s1)
  ∧ (∃ s2, Machine_EnsureDead m1 s1 = Ret (m1, None) s2 ∧
       machines s2 = machines s1).
Proof.
  intros Hdead Hio.
  unfold Machine_EnsureDead, mbind, M_bind, mret, M_ret in Hdead.
  destruct (ensureDead (Id (doc m)) "machine" s) as [[e|] s0|msg s0] eqn:He;
    [discriminate| |discriminate].
  injection Hdead as <- <-.
  destruct (ensureDead_makes_Dead _ _ _ _ He) as (d & Hd & Hlife).
  split; [done|]. split; [by exists d|]. split.
  - intros id.
    destruct (notDead_run_aborts (Id (doc m)) (Set_instanceid id) d s0 Hio Hd
                Hlife) as (s2 & Hrun & Hms & _).
    exists s2. unfold Machine_SetInstanceId, mbind, M_bind, mret, M_ret.
    simpl. by rewrite Hrun.
  - destruct (notDead_run_aborts (Id (doc m)) (Set_life Dead) d s0 Hio Hd
                Hlife) as (s2 & Hrun & Hms & _).
    exists s2.
    unfold Machine_EnsureDead, ensureDead, ensureLife, mbind, M_bind, gets,
      mret, M_ret. simpl.
    rewrite Hrun. simpl. rewrite Hms, Hd. simpl. split; [|done].
    by destruct m as [[]].
Qed.

Lemma X11_EnsureDead_is_final_witness :
  ∃ (m1 : Machine) (s1 s2 : State),
    Machine_EnsureDead m0 st0 = Ret (m1, None) s1 ∧ nextFault s1 = None ∧
    Machine_EnsureDead m1 s1 = Ret (m1, None) s2 ∧
    machines s2 = machines s1.
Proof.
  pose proof (eq_refl : Machine_EnsureDead m0 st0
                        = Ret (setLife m0 Dead, None) _) as H1.
  lazymatch type of H1 with
  | _ = Ret _ ?s1 => assert (H2 : nextFault s1 = None) by reflexivity
  end.
  destruct (X11_EnsureDead_is_final _ _ _ _ H1 H2)
    as (_ & _ & _ & s2 & H3 & H4).
  eexists _, _, s2. exact (conj H1 (conj H2 (conj H3 H4))).
Defined.

Lemma X8_Refresh_reads_only_witness :
  ∃ (m' : Machine) (err : option error) (s' : State),
    Machine_Refresh m0 st0_faulty = Ret (m', err) s' ∧
    machines s' = machines st0_faulty ∧ runner s' = runner st0_faulty.
Proof.
  destruct (X8_Refresh_reads_only m0 st0_faulty)
    as (m' & err & s' & H1 & H2 & H3 & _).
  exact (ex_intro _ m' (ex_intro _ err (ex_intro _ s' (conj H1 (conj H2 H3))))).
Defined.

(** ** Units *)

Lemma units_Find_All_ret (coll : list unitDoc) (q : Selector) (s : State) :
  ∃ s', units_Find_All coll q s
          = Ret (match nextFault s with
                 | Some msg => inr (Errorf msg)
                 | None => inl (filter (λ d, selects q d = true) coll)
                 end) s' ∧
        mem s' = mem s ∧ machines s' = machines s ∧ runner s' = runner s ∧
        pwatcher s' = pwatcher s ∧ faults s' = tail (faults s).
Proof.
  unfold units_Find_All, roundTrip, nextFault, mbind, M_bind, mret, M_ret.
  destruct (faults s) as [|[msg|] fs] eqn:Hf; simpl;
    eexists; (split; [reflexivity|]); simpl; rewrite ?Hf; done.
Qed.

Lemma reachable_tail (s s' : State) :
  reachable s → faults s' = tail (faults s) →
  nextFault s = None ∧ reachable s'.
Proof.
  unfold reachable, nextFault. intros Hr ->.
  destruct (faults s) as [|f fs]; [done|].
  apply Forall_cons in Hr as [-> Hr]. done.
Qed.



Lemma Units_loop_reachable (coll pudocs : list unitDoc) (acc : list Unit)
    (s : State) :
  reachable s →
  ∃ s', Units_loop coll pudocs acc s
        = Ret (acc ++ (p ← pudocs;
                       newUnit p ::
                         (newUnit <$>
                            filter (λ d, selects (by_principal (Name p)) d
                                         = true) coll)),
               None) s'.
Proof.
  revert acc s. induction pudocs as [|pudoc rest IH]; intros acc s Hr.
  - exists s. simpl. by rewrite app_nil_r.
  - simpl. unfold mbind at 1, M_bind, mret, M_ret.
    destruct (units_Find_All_ret coll (by_principal (Name pudoc)) s)
      as (s1 & -> & _ & _ & _ & _ & Hf).
    destruct (reachable_tail s s1 Hr Hf) as [-> Hr1].
    destruct (IH ((acc ++ [newUnit pudoc])
                    ++ map newUnit
                         (filter (λ d, selects (by_principal (Name pudoc)) d
                                       = true) coll)) s1 Hr1)
      as (s' & ->).
    exists s'. f_equal. f_equal. by rewrite <- !app_assoc.
Qed.

(** X13.  With the database reachable, [Units] returns no error and the
    units of the machine in the order of the collection: each unit assigned
    to the machine, followed at once by the units whose principal it is.  So
    a unit is returned exactly when it is assigned to the machine or is
    subordinate to a unit that is. *)
Theorem X13_Units_principals_then_subordinates (coll : list unitDoc)
    (m : Machine) (s : State) :
  reachable s →
  (∃ s', Machine_Units coll m s = Ret (unitsOf coll (Id (doc m)), None) s')
  ∧ (∀ u : Unit, u ∈ unitsOf coll (Id (doc m)) ↔
       ∃ p, p ∈ coll ∧ MachineId p = Some (Id (doc m)) ∧
         (u = newUnit p ∨
          ∃ d, d ∈ coll ∧ Principal d = Name p ∧ u = newUnit d)).
Proof.
  intros Hr. split.
  - unfold Machine_Units, mbind at 1 2, M_bind, mret, M_ret.
    destruct (units_Find_All_ret coll (by_machineid (Id (doc m))) s)
      as (s1 & -> & _ & _ & _ & _ & Hf).
    destruct (reachable_tail s s1 Hr Hf) as [-> Hr1].
    destruct (Units_loop_reachable coll
                (filter (λ d, selects (by_machineid (Id (doc m))) d = true) coll)
                [] s1 Hr1) as (s' & ->).
    by exists s'.
  - intros u. unfold unitsOf. rewrite list_elem_of_bind. split.
    + intros (p & Hu & Hp). apply list_elem_of_filter in Hp as [Hsel Hp].
      simpl in Hsel. apply bool_decide_eq_true_1 in Hsel.
      exists p. split; [done|]. split; [done|].
      apply elem_of_cons in Hu as [->|Hu]; [by left|]. right.
      apply list_elem_of_fmap in Hu as (d & -> & Hd).
      apply list_elem_of_filter in Hd as [Hsel' Hd].
      simpl in Hsel'. apply bool_decide_eq_true_1 in Hsel'. eauto.
    + intros (p & Hp & Hm & Hu). exists p. split.
      * destruct Hu as [->|(d & Hd & Hpr & ->)]; [by left|]. right.
        apply list_elem_of_fmap. exists d. split; [done|].
        apply list_elem_of_filter. split; [|done]. simpl.
        by apply bool_decide_eq_true_2.
      * apply list_elem_of_filter. split; [|done]. simpl.
        by apply bool_decide_eq_true_2.
Qed.

Import sample_more.


Lemma X13_Units_principals_then_subordinates_witness :
  reachable st0 ∧
  ∃ s', Machine_Units coll0 m0 st0
        = Ret ([newUnit (mkUnitDoc "wordpress/0" "" (Some 0%Z));
                newUnit (mkUnitDoc "logging/0" "wordpress/0" None)], None) s'.
Proof.
  assert (H : reachable st0) by apply Forall_nil_2.
  exact (conj H
    (proj1 (X13_Units_principals_then_subordinates coll0 m0 st0 H))).
Defined.

(** * Further properties of the remote-relations client *)

(** Exactly one of two options is set, on concrete options. *)
Ltac solve_xor :=
  simpl; repeat split; intros H;
  solve [ done | by destruct H | by inversion H | eauto ].

(** X14.  [WatchRemoteApplication] returns a watcher or an error, never
    both and never neither, whatever the name and whatever the server
    answers. *)
Theorem X14_WatchRemoteApplication_watcher_xor_error (valid : string → bool)
    (Chg : Type) (st : remoterelations.State Chg) (service : string) :
  let out := (remoterelations.WatchRemoteApplication valid st service).2 in
  (is_Some out.1 ↔ out.2 = None) ∧ (out.1 = None ↔ is_Some out.2).
Proof.
  unfold remoterelations.WatchRemoteApplication, remoterelations.FacadeCall.
  destruct (valid service); simpl.
  - destruct (remoterelations.respond _ _ _) as [e|results]; simpl.
    + solve_xor.
    + destruct (remoterelations.Results results) as [|r [|r' rs]]; simpl;
        try destruct (remoterelations.Error r); simpl; solve_xor.
  - solve_xor.
Qed.

(** X15.  For a valid name [WatchRemoteApplication] makes exactly one call
    to the facade, the request "WatchRemoteApplication" for the one entity
    tagged "application-" and the name, and leaves the facade otherwise as
    it was; an error of that call is returned as it is, with no watcher. *)
Theorem X15_WatchRemoteApplication_one_call (valid : string → bool)
    (Chg : Type) (st : remoterelations.State Chg) (service : string) :
  valid service = true →
  let args := remoterelations.mkEntities
                [remoterelations.mkEntity ("application-" +:+ service)] in
  let r := remoterelations.WatchRemoteApplication valid st service in
  remoterelations.calls (remoterelations.facade r.1)
    = remoterelations.calls (remoterelations.facade st)
      ++ [("WatchRemoteApplication", args)]
  ∧ remoterelations.respond (remoterelations.facade r.1)
    = remoterelations.respond (remoterelations.facade st)
  ∧ ∀ err, remoterelations.respond (remoterelations.facade st)
             "WatchRemoteApplication" args = inl err →
           r.2 = (None, Some err).
Proof.
  intros Hv args r. subst r.
  unfold remoterelations.WatchRemoteApplication, remoterelations.FacadeCall.
  rewrite Hv. simpl. fold args.
  destruct (remoterelations.respond _ _ _) as [e|results] eqn:Hr; simpl.
  - repeat split; try done. by intros err [= ->].
  - destruct (remoterelations.Results results) as [|r [|r' rs]]; simpl;
      try destruct (remoterelations.Error r); simpl; repeat split; done.
Qed.

Lemma X15_WatchRemoteApplication_one_call_witness :
  IsValidApplication "mysql" = true ∧
  remoterelations.calls
    (remoterelations.facade
       (remoterelations.WatchRemoteApplication IsValidApplication facade0
          "mysql").1)
  = [("WatchRemoteApplication",
      remoterelations.mkEntities
        [remoterelations.mkEntity "application-mysql"])].
Proof.
  assert (H : IsValidApplication "mysql" = true) by reflexivity.
  exact (conj H (proj1 (X15_WatchRemoteApplication_one_call
                          IsValidApplication unit facade0 "mysql" H))).
Defined.

(** X16.  [WatchRemoteApplications] makes one call, the request
    "WatchRemoteApplications".  An error of the call comes first and is
    returned as it is; else the error of the result; else a watcher built
    from the result.  It returns a watcher or an error, never both and
    never neither. *)
Theorem X16_WatchRemoteApplications_outcomes (st : remoteapps.State) :
  let r := remoteapps.WatchRemoteApplications st in
  remoteapps.calls (remoteapps.facade r.1)
    = remoteapps.calls (remoteapps.facade st) ++ ["WatchRemoteApplications"]
  ∧ r.2 = match remoteapps.respond (remoteapps.facade st)
                  "WatchRemoteApplications" with
          | inl err => (None, Some err)
          | inr result =>
              match remoteapps.Error result with
              | Some e => (None, Some (remoterelations.ResultError e))
              | None => (Some (remoteapps.NewStringsWatcher result), None)
              end
          end
  ∧ (is_Some r.2.1 ↔ r.2.2 = None).
Proof.
  unfold remoteapps.WatchRemoteApplications, remoteapps.FacadeCall. simpl.
  destruct (remoteapps.respond _ _) as [e|result]; simpl.
  - split; [done|]. split; [done|]. solve_xor.
  - destruct (remoteapps.Error result); simpl;
      (split; [done|]); (split; [done|]); solve_xor.
Qed.

(** * Properties of package [cmd] *)

Lemma string_app_assoc (a b c : string) : (a +:+ b) +:+ c = a +:+ (b +:+ c).
Proof.
  induction a as [|x a IH]; [done|].
  change (String x ((a +:+ b) +:+ c) = String x (a +:+ (b +:+ c))).
  by rewrite IH.
Qed.

Section CmdProperties.

Context {FlagSet : Type} {E : cmd.External FlagSet}.
Context {C : Type} {Cmd : cmd.Command FlagSet C}.

(** X17.  [handleCommandError] is done exactly when there is an error.  Its
    code is 2 exactly for an error other than [ErrHelp], and 0 otherwise.
    It never writes to the standard output; to the standard error it writes
    one line "error: " and the text of the error, or for [ErrHelp] the help
    of the command, and nothing when there is no error. *)
Theorem X17_handleCommandError_codes (c : C) (ctx : cmd.Context)
    (err : option cmd.error) (f : FlagSet) :
  let r := cmd.handleCommandError c ctx err f in
  let rc := r.1.1.1 in
  let done := r.1.1.2 in
  let ctx' := r.1.2 in
  (done = true ↔ err ≠ None)
  ∧ (rc = 2%Z ↔ err ≠ None ∧ err ≠ Some cmd.ErrHelp)
  ∧ (rc ≠ 2%Z → rc = 0%Z)
  ∧ cmd.Stdout ctx' = cmd.Stdout ctx ∧ cmd.Dir ctx' = cmd.Dir ctx
  ∧ (err = None → ctx' = ctx ∧ r.2 = f)
  ∧ (err = Some cmd.ErrHelp →
       ctx' = cmd.writeStderr ctx (cmd.Info_Help (cmd.Info_of c) f).1)
  ∧ (∀ e, err = Some e → e ≠ cmd.ErrHelp →
       ctx' = cmd.writeStderr ctx ("error: " +:+ cmd.Error e +:+ cmd.nl)).
Proof.
  unfold cmd.handleCommandError.
  destruct err as [[| |msg]|]; simpl;
    try destruct (cmd.Info_Help (cmd.Info_of c) f) as [help f'] eqn:Hh; simpl;
    repeat split; try done; try (by intros [? ?]); try (by intros ? [= <-]).
Qed.



(** X19.  A command on [CommandBase] takes no positional argument.  When
    the parser returns no error and leaves arguments, [Main] returns 2, adds
    the line "error: unrecognized args: ..." to the standard error, logs
    nothing and does not run the command.  When it leaves none, [Main] runs
    the command on the context given and returns 1 or 0 as [Run] returns an
    error or not. *)
Theorem X19_CommandBase_takes_no_arguments (c : C) (ctx : cmd.Context)
    (args : list string) (log : list string) (f2 : FlagSet) :
  (∀ c0 f, cmd.SetFlags c0 f = (c0, cmd.CommandBase_SetFlags f)) →
  (∀ c0 a, cmd.Init c0 a = (c0, cmd.CommandBase_Init a)) →
  cmd.ParseArgs c (cmd.SetOutput cmd.Discard
                     (cmd.NewFlagSet (cmd.Name (cmd.Info_of c)))) args
    = (f2, None) →
  (cmd.FlagSet_Args f2 ≠ [] →
     cmd.Main c ctx args log
       = (2%Z, c,
          cmd.writeStderr ctx ("error: " +:+ ("unrecognized args: "
                                 +:+ cmd.quoted (cmd.FlagSet_Args f2))
                               +:+ cmd.nl),
          log))
  ∧ (cmd.FlagSet_Args f2 = [] →
       ∃ c3 ctx3 rerr, cmd.Run c ctx = (c3, ctx3, rerr) ∧
         (cmd.Main c ctx args log).1.1.1
           = match rerr with Some _ => 1%Z | None => 0%Z end ∧
         (cmd.Main c ctx args log).1.1.2 = c3).
Proof.
  intros HSet HInit Hparse. unfold cmd.Main.
  rewrite HSet. unfold cmd.CommandBase_SetFlags. rewrite Hparse. simpl.
  rewrite HInit. unfold cmd.CommandBase_Init, cmd.CheckEmpty. split.
  - intros Hargs. rewrite bool_decide_eq_true_2; [done|].
    by destruct (cmd.FlagSet_Args f2).
  - intros ->. simpl.
    destruct (cmd.Run c ctx) as [[c3 ctx3] rerr].
    exists c3, ctx3, rerr. split; [done|].
    destruct rerr as [e|]; [|done].
    by destruct (bool_decide (e ≠ cmd.ErrSilent)).
Qed.

(** X20.  The help of a command starts with "usage: " and its name, and
    [Help] always leaves the flag set printing to [ioutil.Discard].  For a
    flag set without flags the help does not mention options and it ends
    with a newline; when the command has, besides, no arguments, purpose,
    documentation or aliases, the help is the usage line alone. *)
Theorem X20_Help_shape (i : cmd.Info) (f : FlagSet) :
  let r := cmd.Info_Help i f in
  (∃ rest, r.1 = "usage: " +:+ cmd.Name i +:+ rest)
  ∧ r.2 = cmd.SetOutput cmd.Discard
            (if cmd.hasFlags f then cmd.SetOutput cmd.ToBuffer f else f)
  ∧ (cmd.hasFlags f = false →
       (∃ body, r.1 = body +:+ cmd.nl) ∧
       (cmd.Args i = "" → cmd.Purpose i = "" → cmd.Doc i = "" →
        cmd.Aliases i = [] → r.1 = "usage: " +:+ cmd.Name i +:+ cmd.nl)).
Proof.
  unfold cmd.Info_Help.
  destruct (cmd.hasFlags f); simpl.
  - split; [|split; [done|discriminate]].
    repeat case_bool_decide; rewrite ?string_app_assoc; simpl; eauto.
  - split; [|split; [done|]].
    + repeat case_bool_decide; rewrite ?string_app_assoc; simpl; eauto.
    + intros _. split.
      * destruct (bool_decide (0 < length (cmd.Aliases i))).
        { eexists. rewrite <- !string_app_assoc. reflexivity. }
        destruct (bool_decide (cmd.Doc i ≠ "")).
        { eexists. rewrite <- !string_app_assoc. reflexivity. }
        destruct (bool_decide (cmd.Purpose i ≠ "")).
        { eexists. rewrite <- !string_app_assoc. reflexivity. }
        eexists. reflexivity.
      * intros -> -> -> ->. simpl. by rewrite string_app_assoc.
Qed.

End CmdProperties.

Lemma X17_handleCommandError_codes_witness :
  (cmd.handleCommandError true ctx0 (Some (cmd.Errorf "no such flag"))
     (cmd.NewFlagSet "status")).1.2
  = cmd.writeStderr ctx0 ("error: " +:+ "no such flag" +:+ cmd.nl).
Proof.
  pose proof (X17_handleCommandError_codes true ctx0
                (Some (cmd.Errorf "no such flag")) (cmd.NewFlagSet "status"))
    as (_ & _ & _ & _ & _ & _ & _ & H).
  exact (H (cmd.Errorf "no such flag") eq_refl ltac:(discriminate)).
Defined.


Lemma X19_CommandBase_takes_no_arguments_witness :
  cmd.Main true ctx0 ["x"; "y"] []
  = (2%Z, true,
     cmd.writeStderr ctx0 ("error: " +:+ "unrecognized args: [x y]" +:+ cmd.nl),
     []).
Proof.
  exact (proj1 (X19_CommandBase_takes_no_arguments true ctx0 ["x"; "y"] []
                  (mkFlagSet ["x"; "y"] cmd.Discard)
                  (λ _ _, eq_refl) (λ _ _, eq_refl) eq_refl)
               ltac:(discriminate)).
Defined.

Lemma X20_Help_shape_witness :
  cmd.hasFlags (cmd.NewFlagSet "status") = false ∧
  ∃ body,
    (cmd.Info_Help (cmd.mkInfo "status" "" "show the status" "" [])
                   (cmd.NewFlagSet "status")).1 = body +:+ cmd.nl.
Proof.
  assert (H : cmd.hasFlags (cmd.NewFlagSet "status") = false) by reflexivity.
  exact (conj H (proj1 (proj2 (proj2
    (X20_Help_shape (cmd.mkInfo "status" "" "show the status" "" [])
                    (cmd.NewFlagSet "status"))) H))).
Defined.

Lemma X1_machine_keys_identify_witness :
  Machine_globalKey m0 = Machine_globalKey (setInstanceId m0 "i-123").
Proof.
  exact (proj2 (proj1 (X1_machine_keys_identify m0 (setInstanceId m0 "i-123")))
               eq_refl).
Defined.

Lemma X14_WatchRemoteApplication_watcher_xor_error_witness :
  (remoterelations.WatchRemoteApplication IsValidApplication facade0
     "My SQL").2.1 = None.
Proof.
  exact (proj2 (proj2 (X14_WatchRemoteApplication_watcher_xor_error
                         IsValidApplication unit facade0 "My SQL"))
               (ex_intro _ _ eq_refl)).
Defined.

Lemma X16_WatchRemoteApplications_outcomes_witness :
  is_Some (remoteapps.WatchRemoteApplications apps0).2.1.
Proof.
  exact (proj2 (proj2 (proj2 (X16_WatchRemoteApplications_outcomes apps0)))
               eq_refl).
Defined.

(** [Refresh] returns, and leaves the collection as it is. *)
Lemma Refresh_keeps_machines (m : Machine) (s : State) :
  ∃ r, Machine_Refresh m s = r ∧ machines (finalState r) = machines s.
Proof.
  unfold Machine_Refresh, mbind, M_bind, mret, M_ret.
  destruct (machines_FindId_One_ret (Id (doc m)) s)
    as (r & s' & -> & Hms & _).
  destruct r as [d|e]; [|destruct e]; eexists; (split; [reflexivity|]); done.
Qed.

(** * The stored lifecycle *)

Lemma advances_refl (ms : gmap Z storedDoc) : advances ms ms.
Proof. intros k d Hk. exists d. auto. Qed.

(** A transaction of one operation whose update does not move [Life]
    backward on the documents it is applicable to. *)
Lemma run_one_advances (op : Op) (s : State) :
  (∀ d, holds (Assert op) d = true →
     Life_rank (docLife d) ≤ Life_rank (docLife (applyUpdate (Update op) d)) ∧
     Id (applyUpdate (Update op) d) = Id d) →
  ∃ err s', runner_Run [op] s = Ret err s' ∧
    advances (machines s) (machines s').
Proof.
  intros Hup.
  destruct (runner_Run_cases [op] s) as (err & s' & Hrun & _ & _ & Hcase).
  exists err, s'. split; [done|].
  destruct (nextFault s) as [msg|].
  { destruct Hcase as [_ ->]. apply advances_refl. }
  simpl in Hcase. rewrite andb_true_r in Hcase.
  destruct (opHolds (machines s) op) eqn:Hop.
  - destruct Hcase as [_ ->]. simpl. intros k d Hk. unfold applyOp.
    destruct (decide (k = DocId op)) as [->|Hne].
    + rewrite lookup_alter_eq, Hk. simpl. eexists. split; [done|].
      unfold opHolds in Hop. rewrite Hk in Hop.
      destruct (Hup d Hop) as [Hrank Hid]. simpl. auto.
    + rewrite lookup_alter_ne by done. exists d. auto.
  - destruct Hcase as [_ ->]. apply advances_refl.
Qed.

Lemma ensureLife_advances (target : Life) (below : Assertion) (id : Z)
    (desc : string) (s : State) :
  (target = Dying ∧ below = isAlive) ∨ (target = Dead ∧ below = notDead) →
  ∃ err s', ensureLife target below id desc s = Ret err s' ∧
    advances (machines s) (machines s').
Proof.
  intros Hcase. unfold ensureLife, mbind, M_bind, gets, mret, M_ret.
  destruct (run_one_advances (mkOp machines_Name id below (Set_life target)) s)
    as (err & s' & -> & Hadv).
  { intros d Hd. simpl in *. split; [|done].
    destruct Hcase as [[-> ->]|[-> ->]]; simpl in Hd;
      apply bool_decide_eq_true_1 in Hd; destruct (docLife d); simpl;
      try lia; congruence. }
  destruct err as [e|]; [|eauto].
  destruct e; eauto. destruct (machines s' !! id); eauto.
Qed.

(** X21.  In the database no method of a machine handle moves a lifecycle
    backward.  After [SetInstanceId], [SetAgentTools], [EnsureDying],
    [EnsureDead] or [Refresh], however the call ends, every document that
    was in the collection is still there, under the same id, with a [Life]
    at or past the one it had. *)
Theorem X21_stored_Life_never_goes_back (m : Machine) (s : State) :
  (∀ id, advances (machines s)
           (machines (finalState (Machine_SetInstanceId m id s))))
  ∧ (∀ t, advances (machines s)
            (machines (finalState (Machine_SetAgentTools m t s))))
  ∧ advances (machines s) (machines (finalState (Machine_EnsureDying m s)))
  ∧ advances (machines s) (machines (finalState (Machine_EnsureDead m s)))
  ∧ advances (machines s) (machines (finalState (Machine_Refresh m s))).
Proof.
  split; [|split; [|split; [|split]]].
  - intros id. unfold Machine_SetInstanceId, mbind, M_bind, mret, M_ret.
    destruct (run_one_advances
                (mkOp machines_Name (Id (doc m)) notDead (Set_instanceid id)) s)
      as (err & s' & -> & Hadv); [done|].
    by destruct err.
  - intros t. unfold Machine_SetAgentTools, mbind, M_bind, mret, M_ret.
    unfold load at 1. destruct (t ≫= (mem s !!.)) as [tv|]; simpl;
      [|apply advances_refl].
    destruct (bool_decide (Series tv = "") || bool_decide (Arch tv = ""));
      simpl; [apply advances_refl|].
    destruct (run_one_advances
                (mkOp machines_Name (Id (doc m)) notDead (Set_tools tv)) s)
      as (err & s' & -> & Hadv); [done|].
    destruct err as [e|]; simpl; [done|].
    unfold load. destruct (t ≫= (mem s' !!.)); simpl; done.
  - unfold Machine_EnsureDying, ensureDying, mbind, M_bind, mret, M_ret.
    destruct (ensureLife_advances Dying isAlive (Id (doc m)) "machine" s)
      as (err & s' & -> & Hadv); [auto|].
    by destruct err.
  - unfold Machine_EnsureDead, ensureDead, mbind, M_bind, mret, M_ret.
    destruct (ensureLife_advances Dead notDead (Id (doc m)) "machine" s)
      as (err & s' & -> & Hadv); [auto|].
    by destruct err.
  - destruct (Refresh_keeps_machines m s) as (r & -> & Hms).
    simpl. rewrite Hms. apply advances_refl.
Qed.

Lemma X21_stored_Life_never_goes_back_witness :
  ∃ d', machines (finalState (Machine_EnsureDead m0 st0)) !! 0%Z = Some d' ∧
    Id d' = 0%Z ∧ Life_rank Alive ≤ Life_rank (docLife d').
Proof.
  exact (proj1 (proj2 (proj2 (proj2 (X21_stored_Life_never_goes_back m0 st0))))
               0%Z (mkDoc 0%Z "" [] Alive None 0%Z ["machiner"]) eq_refl).
Defined.
